(** * ml4logs: the BERT embedding scripts, embedded in Rocq

    A shallow embedding of the four Python files under [src/bert]:

    - [encoders.py]: the [DistilBertForClsEmbedding] head;
    - [train_ict_preprocessed_data.py]: run naming and tower selection;
    - [embed_dataset_using_pretrained_model.py]: embedding of a raw log file;
    - [embed_labeled_dataset_for_anomaly_detection.py]: embedding of a
      labeled, block-grouped log file.

    Python strings are [string], Python ints are [Z], [None]-able values are
    [option], dictionaries keyed by strings are [gmap string _] (or an
    association list where the iteration order is observable), and the
    scripts' effects (loading, encoding, writing) are recorded in a trace that
    an exception monad threads through the code. *)

From Stdlib Require Import Ascii DecimalString.
From Stdlib Require String DecimalZ DecimalPos.
From stdpp Require Import gmap strings list.

(** ** Python runtime pieces used by the scripts *)

Module Py.

(** Python exceptions raised by the modelled code. *)
Inductive exn : Type :=
  | AssertionError (msg : string)
  | KeyError (key : string)
  | IndexError
  | TypeError
  | RuntimeError (msg : string).

(** A computation that either raises or returns. *)
Definition result (A : Type) : Type := exn + A.

Definition raise {A : Type} (e : exn) : result A := inl e.

#[global] Instance result_ret : MRet result := fun A x => inr x.

#[global] Instance result_bind : MBind result := fun A B f m =>
  match m with
  | inl e => inl e
  | inr x => f x
  end.

(** [[f(x) for x in xs]] when [f] may raise: the first exception stops the
    loop. *)
Fixpoint traverse {A B : Type} (f : A -> result B) (xs : list A)
  : result (list B) :=
  match xs with
  | [] => inr []
  | x :: xs' =>
      match f x with
      | inl e => inl e
      | inr y =>
          match traverse f xs' with
          | inl e => inl e
          | inr ys => inr (y :: ys)
          end
      end
  end.

(** [assert cond, msg]. *)
Definition assert (cond : bool) (msg : string) : result unit :=
  if cond then inr tt else inl (AssertionError msg).

(** [d.setdefault(k, v)]: the value stored under [k], after storing [v] when
    the key was missing. *)
Definition setdefault {V : Type} (k : string) (v : V) (d : gmap string V)
  : V * gmap string V :=
  match d !! k with
  | Some x => (x, d)
  | None => (v, <[k := v]> d)
  end.

(** A Python [dict] with string keys, as the list of its items in insertion
    order; a key occurs at most once. *)
Definition dict (V : Type) : Type := list (string * V).

(** [d[k]]. *)
Fixpoint dict_get {V : Type} (d : dict V) (k : string) : result V :=
  match d with
  | [] => raise (KeyError k)
  | (k', v) :: d' => if String.eqb k' k then inr v else dict_get d' k
  end.

(** [k in d]. *)
Definition dict_in {V : Type} (k : string) (d : dict V) : bool :=
  existsb (fun kv => String.eqb (fst kv) k) d.

(** [d[k] = v]: an existing key keeps its place, a new key goes last. *)
Fixpoint dict_set {V : Type} (d : dict V) (k : string) (v : V) : dict V :=
  match d with
  | [] => [(k, v)]
  | (k', v') :: d' =>
      if String.eqb k' k then (k', v) :: d' else (k', v') :: dict_set d' k v
  end.

(** [d.values()]. *)
Definition dict_values {V : Type} (d : dict V) : list V := map snd d.

(** [d.keys()]. *)
Definition dict_keys {V : Type} (d : dict V) : list string := map fst d.

(** [{key(x): x for x in xs}]. *)
Definition dict_by {V : Type} (key : V -> string) (xs : list V) : dict V :=
  fold_left (fun d x => dict_set d (key x) x) xs [].

(** Truthiness of a Python [int]: [if n] holds exactly for [n != 0]. *)
Definition truthy (n : Z) : bool := negb (Z.eqb n 0).

(** [str(n)] for a Python [int]: decimal digits, with a leading minus sign
    for negative numbers. *)
Definition str_of_int (n : Z) : string := NilZero.string_of_int (Z.to_int n).

(** [s.startswith(p)]. *)
Fixpoint startswith (p s : string) : bool :=
  match p with
  | EmptyString => true
  | String a p' =>
      match s with
      | EmptyString => false
      | String b s' => Ascii.eqb a b && startswith p' s'
      end
  end.

(** [sub in s] for strings: [sub] occurs at some position of [s]. *)
Fixpoint str_in (sub s : string) : bool :=
  startswith sub s ||
  match s with
  | EmptyString => false
  | String _ s' => str_in sub s'
  end.

(** [c in s] for a single character. *)
Fixpoint chr_in (c : Ascii.ascii) (s : string) : bool :=
  match s with
  | EmptyString => false
  | String b s' => Ascii.eqb c b || chr_in c s'
  end.

(** [s.replace(old, new)] where [old] and [new] are single characters (the
    only use in the scripts is [replace(' ', '_')]): every occurrence is
    replaced. *)
Fixpoint replace_chr (old new : Ascii.ascii) (s : string) : string :=
  match s with
  | EmptyString => EmptyString
  | String b s' =>
      String (if Ascii.eqb b old then new else b) (replace_chr old new s')
  end.

(** [s.rfind(c)] for a single character: the highest index of [c] in [s],
    [None] for Python's [-1]. *)
Fixpoint rfind_chr (c : Ascii.ascii) (s : string) : option nat :=
  match s with
  | EmptyString => None
  | String b s' =>
      match rfind_chr c s' with
      | Some i => Some (S i)
      | None => if Ascii.eqb b c then Some 0 else None
      end
  end.

(** [s[:i]]. *)
Fixpoint str_take (i : nat) (s : string) : string :=
  match i, s with
  | S i', String b s' => String b (str_take i' s')
  | _, _ => EmptyString
  end.

(** [s.split(c)] for a single-character separator. *)
Fixpoint split_chr (c : Ascii.ascii) (s : string) : list string :=
  match s with
  | EmptyString => [EmptyString]
  | String b s' =>
      if Ascii.eqb b c then EmptyString :: split_chr c s'
      else match split_chr c s' with
           | [] => [String b EmptyString]
           | w :: ws => String b w :: ws
           end
  end.

(** [sep.join(parts)]. *)
Fixpoint join (sep : string) (parts : list string) : string :=
  match parts with
  | [] => EmptyString
  | [w] => w
  | w :: ws => w +:+ sep +:+ join sep ws
  end.

(** The characters of a printed integer. *)
Definition is_int_chr (c : Ascii.ascii) : bool := chr_in c "-0123456789".

End Py.

(** ** [pathlib.PurePosixPath]

    The scripts build their paths with [pathlib.Path]; the model follows
    CPython's pure POSIX flavour: a path is its root (empty, one slash or two)
    and the list of its name components, with empty and [.] components
    dropped when a string is parsed. [stem] is that of CPython 3.8 to 3.12. *)

Module Pathlib.
Import Py.

Record Path : Type := mkPath {
  root : string;          (* [""], ["/"] or ["//"] *)
  names : list string     (* the components after the root *)
}.

(** [part.lstrip('/')] together with the number of slashes removed. *)
Fixpoint lstrip_sep (s : string) : nat * string :=
  match s with
  | String b s' =>
      if Ascii.eqb b "/" then let '(n, r) := lstrip_sep s' in (S n, r)
      else (0, s)
  | EmptyString => (0, s)
  end.

(** [_PosixFlavour.splitroot]: exactly two leading slashes are kept as the
    root, any other positive number collapses to one. *)
Definition splitroot (part : string) : string * string :=
  match lstrip_sep part with
  | (0, _) => ("", part)
  | (2, rel) => ("//", rel)
  | (_, rel) => ("/", rel)
  end.

(** A component survives parsing when it is neither empty nor [.]. *)
Definition kept (x : string) : bool :=
  negb (String.eqb x "") && negb (String.eqb x ".").

(** [Path(s)]. *)
Definition parse (s : string) : Path :=
  let '(r, rel) := splitroot s in
  {| root := r; names := filter (fun x => kept x = true) (split_chr "/" rel) |}.

(** [p / s]: an anchored right operand replaces the left one. *)
Definition truediv (p : Path) (s : string) : Path :=
  let q := parse s in
  if String.eqb (root q) "" then
    {| root := root p; names := names p ++ names q |}
  else q.

(** [p / 'name'], as in [output_path / 'X.pickle']. *)
Definition child (p : Path) (x : string) : Path := truediv p x.

(** [p.name]: the final component, [''] when there is none. *)
Definition name (p : Path) : string := List.last (names p) "".

(** [p.stem]: the name without its last suffix. A leading dot, or a dot that
    ends the name, does not start a suffix. *)
Definition stem (p : Path) : string :=
  let n := name p in
  match rfind_chr "." n with
  | Some i =>
      if (0 <? i)%nat && (i <? String.length n - 1)%nat then str_take i n
      else n
  | None => n
  end.

(** [str(p)]. *)
Definition str (p : Path) : string :=
  match root p, names p with
  | EmptyString, [] => "."
  | r, ns => r +:+ join "/" ns
  end.

(** [q] lies in the directory tree below [p]. *)
Definition is_under (p q : Path) : Prop :=
  root q = root p /\ names p `prefix_of` names q.

End Pathlib.

(** ** [torch] tensors and [torch.nn.Linear]

    Tensors are nested lists, outermost dimension first. The scalar type and
    its arithmetic are left open: what is proved concerns shapes and data
    flow, not rounding. *)

Module Torch.
Import Py.

Class Scalar (R : Type) : Type := {
  Rzero : R;
  Radd : R -> R -> R;
  Rmul : R -> R -> R
}.

Section Tensors.
Context {R : Type} `{Scalar R}.

(** [sum(w[j] * x[j] for j)]. *)
Definition dot (w x : list R) : R :=
  foldr Radd Rzero (zip_with Rmul w x).

(** [torch.nn.Linear]: [weight] has shape [(out_features, in_features)] and
    [bias] has shape [(out_features,)]. *)
Record Linear : Type := mkLinear {
  in_features : nat;
  out_features : nat;
  weight : list (list R);
  bias : list R
}.

(** [torch.nn.Linear(in_f, out_f)]: the constructor allocates both tensors
    with the shapes above; [w] and [b] give the values they hold (set by the
    initialiser or loaded from a checkpoint). *)
Definition Linear_new (in_f out_f : nat) (w : nat -> nat -> R) (b : nat -> R)
  : Linear :=
  {| in_features := in_f;
     out_features := out_f;
     weight := map (fun i => map (w i) (seq 0 in_f)) (seq 0 out_f);
     bias := map b (seq 0 out_f) |}.

(** One row through the layer: [x @ weight.T + bias]. A row whose length is
    not [in_features] is a shape error. *)
Definition Linear_forward_row (l : Linear) (x : list R) : result (list R) :=
  if Nat.eqb (length x) (in_features l) then
    inr (zip_with (fun wi bi => Radd (dot wi x) bi) (weight l) (bias l))
  else raise (RuntimeError "mat1 and mat2 shapes cannot be multiplied").

(** [Linear.forward] on a batch of rows. *)
Definition Linear_forward (l : Linear) (xs : list (list R))
  : result (list (list R)) :=
  traverse (Linear_forward_row l) xs.

(** [t[:, 0]] on a tensor of shape [(batch, seq, dim)]: the first position of
    every batch element; an empty sequence axis is an [IndexError]. *)
Definition select_first (t : list (list (list R))) : result (list (list R)) :=
  traverse (fun row => match row with
                       | c :: _ => inr c
                       | [] => raise IndexError
                       end) t.

End Tensors.

#[global] Arguments Linear R : clear implicits.

End Torch.

(** ** [encoders.py] *)

Module Encoders.
Import Py Torch.

(** The fields of the model configuration that the scripts read. *)
Record PretrainedConfig : Type := mkConfig {
  dim : nat;
  task_specific_params : option (gmap string nat);
  architectures : option (list string)
}.

(** What a tokenizer call returns and the encoder consumes. *)
Record BatchEncoding : Type := mkEncoding {
  input_ids : list (list Z);
  attention_mask : list (list Z)
}.

(** The part of [transformers] and [torch] below the encoder head: the
    DistilBERT body with its parameters and buffers, and the state of the
    random generator that dropout draws from in training mode. The forward
    pass reads the body, the mode flag and the generator state, and returns
    the last hidden state of shape [(batch, seq, dim)] together with the
    body and the generator state it leaves behind. *)
Class Backend (R : Type) : Type := {
  backend_scalar :: Scalar R;
  DistilBertModel : Type;
  generator : Type;
  DistilBertModel_forward :
    DistilBertModel -> bool -> generator -> list (list Z) -> list (list Z) ->
    list (list (list R)) * DistilBertModel * generator
}.

Section Encoder.
Context {R : Type} `{Backend R}.

(** [EmbeddingOutput]: a model output with the single field [embedding]. *)
Record EmbeddingOutput : Type := mkEmbeddingOutput {
  embedding : list (list R)
}.

(** An instance of [DistilBertForClsEmbedding]. [training] is the mode flag
    of [torch.nn.Module]. *)
Record DistilBertForClsEmbedding : Type := mkModel {
  config : PretrainedConfig;
  distilbert : DistilBertModel;
  cls_projector : Linear R;
  training : bool
}.

(** The values a freshly built model holds: what [DistilBertModel(config)]
    and [init_weights()] produce, or what a checkpoint stores. *)
Record state_values : Type := mkValues {
  body_values : DistilBertModel;
  weight_values : nat -> nat -> R;
  bias_values : nat -> R
}.

(** [config.task_specific_params] after lines 23-27 of [__init__], paired with
    the dimension [setdefault] returned. *)
Definition cls_embedding_dimension (cfg : PretrainedConfig)
  : nat * gmap string nat :=
  let params := match task_specific_params cfg with
                | None => ∅
                | Some d => d
                end in
  setdefault "cls_embedding_dimension" 512 params.

(** [DistilBertForClsEmbedding.__init__]. The configuration object is
    mutated by the constructor, so the updated configuration is what the
    model keeps. A new module starts in training mode. *)
Definition __init__ (cfg : PretrainedConfig) (v : state_values)
  : DistilBertForClsEmbedding :=
  let '(d, params) := cls_embedding_dimension cfg in
  let cfg' := {| dim := dim cfg;
                 task_specific_params := Some params;
                 architectures := architectures cfg |} in
  {| config := cfg';
     distilbert := body_values v;
     cls_projector := Linear_new (dim cfg) d (weight_values v) (bias_values v);
     training := true |}.

(** [torch.nn.Module.eval]. *)
Definition eval (self : DistilBertForClsEmbedding) : DistilBertForClsEmbedding :=
  {| config := config self;
     distilbert := distilbert self;
     cls_projector := cls_projector self;
     training := false |}.

(** Lines 33-35 of [forward]: from the last hidden state to the output. *)
Definition cls_head (proj : Linear R) (last_hidden_state : list (list (list R)))
  : result EmbeddingOutput :=
  cls_token_embedding ← select_first last_hidden_state;
  cls_encoding ← Linear_forward proj cls_token_embedding;
  mret {| embedding := cls_encoding |}.

(** [DistilBertForClsEmbedding.forward]. The method assigns to no attribute
    of [self]; the body is whatever the DistilBERT call leaves behind. *)
Definition forward (self : DistilBertForClsEmbedding) (g : generator)
    (ids mask : list (list Z))
  : result EmbeddingOutput * DistilBertForClsEmbedding * generator :=
  let '(last_hidden_state, body, g') :=
    DistilBertModel_forward (distilbert self) (training self) g ids mask in
  (cls_head (cls_projector self) last_hidden_state,
   {| config := config self;
      distilbert := body;
      cls_projector := cls_projector self;
      training := training self |},
   g').

(** A saved model: its configuration file and its stored values. *)
Record checkpoint : Type := mkCheckpoint {
  ckpt_config : PretrainedConfig;
  ckpt_values : state_values
}.

(** [DistilBertForClsEmbedding.from_pretrained]: the library builds the
    model from the saved configuration, fills in the saved values and puts
    the model in evaluation mode. *)
Definition from_pretrained (ckpt : checkpoint) : DistilBertForClsEmbedding :=
  eval (__init__ (ckpt_config ckpt) (ckpt_values ckpt)).

(** Every embedding that [self] returns has [d] entries. *)
Definition outputs_have_dimension (self : DistilBertForClsEmbedding) (d : nat)
  : Prop :=
  forall g ids mask out,
    (forward self g ids mask).1.1 = inr out ->
    Forall (fun e => length e = d) (embedding out).

(** The value of [task_specific_params['cls_embedding_dimension']], with the
    default of the constructor. *)
Definition configured_dimension (cfg : PretrainedConfig) : nat :=
  match task_specific_params cfg with
  | Some params => default 512 (params !! "cls_embedding_dimension")
  | None => 512
  end.

End Encoder.

#[global] Arguments EmbeddingOutput R : clear implicits.
#[global] Arguments DistilBertForClsEmbedding R {_}.
#[global] Arguments state_values R {_}.
#[global] Arguments checkpoint R {_}.

End Encoders.

(** ** [train_ict_preprocessed_data.py] *)

Module TrainIct.
Import Py.

(** [get_run_name]. The function is annotated with [two_tower: bool] but is
    called with the integer that [--two-tower] parses to; the conditional
    expression tests its truth value. *)
Definition get_run_name (two_tower : Z) (fp16 : bool) (dataset_name : string)
    (seed target_max_seq_len context_max_seq_len : Z)
    (train_batch_size eval_batch_size output_encode_dim : Z)
    (encoder_type pretrained_checkpoint : string) : string :=
  encoder_type +:+ " " +:+ pretrained_checkpoint +:+ " "
  +:+ (if truthy two_tower then "2T" else "1T")
  +:+ (if fp16 then " fp16" else "")
  +:+ " " +:+ dataset_name
  +:+ " Seed-" +:+ str_of_int seed
  +:+ " T-len " +:+ str_of_int target_max_seq_len
  +:+ " C-len " +:+ str_of_int context_max_seq_len
  +:+ " Tr-batch " +:+ str_of_int train_batch_size
  +:+ " Ev-b " +:+ str_of_int eval_batch_size
  +:+ " O-dim " +:+ str_of_int output_encode_dim.

(** The words of a run name: [get_run_name] joins them with single spaces. *)
Definition run_name_words (two_tower : Z) (fp16 : bool) (dataset_name : string)
    (seed target_max_seq_len context_max_seq_len : Z)
    (train_batch_size eval_batch_size output_encode_dim : Z)
    (encoder_type pretrained_checkpoint : string) : list string :=
  [encoder_type; pretrained_checkpoint;
   if truthy two_tower then "2T" else "1T"]
  ++ (if fp16 then ["fp16"] else [])
  ++ [dataset_name; "Seed-" +:+ str_of_int seed;
      "T-len"; str_of_int target_max_seq_len;
      "C-len"; str_of_int context_max_seq_len;
      "Tr-batch"; str_of_int train_batch_size;
      "Ev-b"; str_of_int eval_batch_size;
      "O-dim"; str_of_int output_encode_dim].

(** The namespace that [main]'s argument parser produces. *)
Record Namespace : Type := mkNamespace {
  two_tower : Z;
  fp16 : bool;
  bert_model : string;
  encoder_type : string;
  train_batch_size : Z;
  epochs : Z;
  logging_steps : Z;
  eval_steps : Z;
  save_steps : Z;
  save_total_limit : Z;
  eval_batch_size : Z;
  target_max_seq_len : Z;
  context_max_seq_len : Z;
  output_encode_dim : Z;
  checkpoint_directory : option string;
  seed : Z;
  dataset_name : option string;
  train_dataset : option string;
  eval_dataset : option string;
  wandb_project : option string
}.

(** The defaults of [main]'s parser: the namespace for an empty command
    line. *)
Definition default_namespace : Namespace :=
  {| two_tower := 0; fp16 := false;
     bert_model := "distilbert-base-cased"; encoder_type := "DistilbertCls";
     train_batch_size := 64; epochs := 1; logging_steps := 10;
     eval_steps := 500; save_steps := 500; save_total_limit := 25;
     eval_batch_size := 64; target_max_seq_len := 512;
     context_max_seq_len := 512; output_encode_dim := 100;
     checkpoint_directory := None; seed := 42; dataset_name := None;
     train_dataset := None; eval_dataset := None; wandb_project := None |}.

(** The two model wrappers of [ict.py], as the constructor calls that
    [run_experiment] makes. *)
Inductive ICT (C : Type) : Type :=
  | TwoTowerICT (tower_class : C) (bert_model : string)
      (output_encode_dimension : Z)
  | OneTowerICT (tower_class : C) (bert_model : string)
      (output_encode_dimension : Z).

#[global] Arguments TwoTowerICT {C}.
#[global] Arguments OneTowerICT {C}.

(** Which of the two wrappers a model is. *)
Definition is_two_tower {C : Type} (m : ICT C) : bool :=
  match m with
  | TwoTowerICT _ _ _ => true
  | OneTowerICT _ _ _ => false
  end.

(** The special token ids read off the tokenizer. *)
Record Tokenizer : Type := mkTokenizer {
  pad_token_id : Z;
  cls_token_id : Z;
  sep_token_id : Z
}.

Record DataCollatorForPreprocessedICT : Type := mkCollator {
  target_max_seq : Z;
  context_max_seq : Z;
  pad_token : Z;
  start_token : Z;
  sep_token : Z
}.

(** The keyword arguments given to [TrainingArguments]; [weight_decay] keeps
    its literal. *)
Record TrainingArguments : Type := mkTrainingArguments {
  output_dir : string;
  ta_fp16 : bool;
  num_train_epochs : Z;
  per_device_eval_batch_size : Z;
  per_device_train_batch_size : Z;
  warmup_steps : Z;
  weight_decay : string;
  logging_dir : string;
  ta_logging_steps : Z;
  logging_first_step : bool;
  ta_eval_steps : Z;
  evaluation_strategy : string;
  prediction_loss_only : bool;
  ta_save_steps : Z;
  ta_save_total_limit : Z;
  dataloader_drop_last : bool;
  label_names : list string;
  ta_seed : Z;
  run_name : string;
  remove_unused_columns : bool
}.

(** What [run_experiment] has built when it calls [trainer.train]. *)
Record Experiment (C : Type) : Type := mkExperiment {
  env_WANDB_PROJECT : string;
  data_collator : DataCollatorForPreprocessedICT;
  train_dataset_path : string;
  eval_dataset_path : string;
  model : ICT C;
  training_args : TrainingArguments;
  resume_from_checkpoint : option string;
  encoder_save_name : string
}.

#[global] Arguments mkExperiment {C}.
#[global] Arguments model {C}.
#[global] Arguments training_args {C}.
#[global] Arguments env_WANDB_PROJECT {C}.
#[global] Arguments data_collator {C}.
#[global] Arguments train_dataset_path {C}.
#[global] Arguments eval_dataset_path {C}.
#[global] Arguments resume_from_checkpoint {C}.
#[global] Arguments encoder_save_name {C}.

Section RunExperiment.
(** [C] is the type of encoder classes. [KNOWN_ENCODER_CLASSES] is imported
    from [encoders] and [AutoTokenizer.from_pretrained] from the library. *)
Context {C : Type}.
Variable KNOWN_ENCODER_CLASSES : dict C.
Variable AutoTokenizer_from_pretrained : string -> Tokenizer.

(** [run_experiment], up to the call of [trainer.train]. *)
Definition run_experiment (config : Namespace) : result (Experiment C) :=
  let wandb := match wandb_project config with
               | None => "ICT"
               | Some p => p
               end in
  _ ← assert (bool_decide (is_Some (dataset_name config)))
        "Dataset name must be filled";
  _ ← assert (dict_in (encoder_type config) KNOWN_ENCODER_CLASSES)
        ("Encoder type must be one of valid options, which are ["
         +:+ join "," (dict_keys KNOWN_ENCODER_CLASSES) +:+ "]");
  let RUN_NAME :=
    get_run_name (two_tower config) (fp16 config)
      (default "" (dataset_name config)) (seed config)
      (target_max_seq_len config) (context_max_seq_len config)
      (train_batch_size config) (eval_batch_size config)
      (output_encode_dim config) (encoder_type config) (bert_model config) in
  let tokenizer := AutoTokenizer_from_pretrained (bert_model config) in
  let collator :=
    {| target_max_seq := target_max_seq_len config;
       context_max_seq := context_max_seq_len config;
       pad_token := pad_token_id tokenizer;
       start_token := cls_token_id tokenizer;
       sep_token := sep_token_id tokenizer |} in
  _ ← assert (bool_decide (is_Some (train_dataset config)))
        "Train dataset must not be None";
  _ ← assert (bool_decide (is_Some (eval_dataset config)))
        "Eval dataset must not be None";
  tower_class ← dict_get KNOWN_ENCODER_CLASSES (encoder_type config);
  let model :=
    if truthy (two_tower config)
    then TwoTowerICT tower_class (bert_model config) (output_encode_dim config)
    else OneTowerICT tower_class (bert_model config) (output_encode_dim config) in
  let args :=
    {| output_dir := "../../models/ICT/" +:+ replace_chr " " "_" RUN_NAME;
       ta_fp16 := fp16 config;
       num_train_epochs := epochs config;
       per_device_eval_batch_size := eval_batch_size config;
       per_device_train_batch_size := train_batch_size config;
       warmup_steps := 1000;
       weight_decay := "0.01";
       logging_dir := "../../logs";
       ta_logging_steps := logging_steps config;
       logging_first_step := true;
       ta_eval_steps := eval_steps config;
       evaluation_strategy := "steps";
       prediction_loss_only := true;
       ta_save_steps := save_steps config;
       ta_save_total_limit := save_total_limit config;
       dataloader_drop_last := true;
       label_names := ["target"; "context"];
       ta_seed := seed config;
       run_name := RUN_NAME;
       remove_unused_columns := false |} in
  mret {| env_WANDB_PROJECT := wandb;
          data_collator := collator;
          train_dataset_path := default "" (train_dataset config);
          eval_dataset_path := default "" (eval_dataset config);
          model := model;
          training_args := args;
          resume_from_checkpoint := checkpoint_directory config;
          encoder_save_name := replace_chr " " "_" RUN_NAME |}.

End RunExperiment.

End TrainIct.

(** ** What the two embedding scripts share

    The scripts read the file system once (the check of the output path),
    call loaders and the encoder, and write their result. The file system is
    the snapshot their check sees; every load, encoder call and write is
    appended to a trace. Logging, timing and the choice of device are left
    out: they do not change any value the scripts compute. *)

Module Script.
Import Py Pathlib Torch Encoders.

(** What the operating system reports for a path: nothing, a regular file,
    or a directory with the names of its entries. *)
Inductive node : Type :=
  | RegularFile
  | Directory (entries : list string).

Definition filesystem : Type := Path -> option node.

(** [p.exists()]. *)
Definition exists_ (fs : filesystem) (p : Path) : bool :=
  match fs p with
  | Some _ => true
  | None => false
  end.

(** [p.is_dir()]. *)
Definition is_dir (fs : filesystem) (p : Path) : bool :=
  match fs p with
  | Some (Directory _) => true
  | _ => false
  end.

(** [list(p.iterdir())]; the scripts call it on directories only. *)
Definition iterdir (fs : filesystem) (p : Path) : list Path :=
  match fs p with
  | Some (Directory entries) => map (child p) entries
  | _ => []
  end.

(** [any(xs)] for a list of [Path] objects, each of which is truthy. *)
Definition any_path (xs : list Path) : bool :=
  match xs with
  | [] => false
  | _ :: _ => true
  end.

(** The condition of the output-path assertion of both scripts. *)
Definition output_path_usable (fs : filesystem) (output_path : Path) : bool :=
  negb (exists_ fs output_path)
  || (exists_ fs output_path && is_dir fs output_path
      && negb (any_path (iterdir fs output_path))).

(** [xs[i : i + n]] for [i = 0, n, 2n, ...]; [fuel] bounds the number of
    slices. *)
Fixpoint slices {A : Type} (fuel n : nat) (xs : list A) : list (list A) :=
  match fuel, xs with
  | S fuel', _ :: _ => take n xs :: slices fuel' n (drop n xs)
  | _, _ => []
  end.

(** The batches that [Dataset.map(batched=True, batch_size=n)] hands to its
    function: consecutive runs of [n] rows, or the whole dataset at once
    when [n <= 0]. *)
Definition batches {A : Type} (batch_size : Z) (rows : list A)
  : list (list A) :=
  if (batch_size <=? 0)%Z then
    match rows with
    | [] => []
    | _ :: _ => [rows]
    end
  else slices (length rows) (Z.to_nat batch_size) rows.

Section World.
Context {R : Type} `{Backend R}.

(** The observable steps of a run. An encoder call records the texts of the
    batch and the array it returned. *)
Inductive event : Type :=
  | LoadDataset (p : Path)
  | ReadCsv (p : Path)
  | LoadTokenizer (name : string)
  | LoadConfig (model_path : string)
  | LoadModel (class_name model_path : string)
  | Forward (texts : list string) (output : list (list R))
  | Mkdir (p : Path)
  | PickleDump (p : Path) (obj : list (list (list R)))
  | NpSave (p : Path) (arr : list Z)
  | SaveToDisk (p : Path) (rows : list (string * list R)).

(** The state a run threads: the trace so far and torch's generator. *)
Record world : Type := mkWorld {
  trace : list event;
  gen : generator
}.

(** A step of a script: it may raise, and what it did before stays done. *)
Definition M (A : Type) : Type := world -> result A * world.

#[global] Instance M_ret : MRet M := fun A x w => (inr x, w).

#[global] Instance M_bind : MBind M := fun A B f m w =>
  match m w with
  | (inl e, w') => (inl e, w')
  | (inr x, w') => f x w'
  end.

Definition lift {A : Type} (r : result A) : M A := fun w => (r, w).

Definition emit (e : event) : M unit :=
  fun w => (inr tt, {| trace := trace w ++ [e]; gen := gen w |}).

(** [assert x is not None, msg], giving the value. *)
Definition assert_given {A : Type} (x : option A) (msg : string) : M A :=
  match x with
  | Some v => mret v
  | None => lift (raise (AssertionError msg))
  end.

(** Is this event an encoder call? *)
Definition is_forward (e : event) : bool :=
  match e with
  | Forward _ _ => true
  | _ => false
  end.



(** A step that only ever appends to the trace. *)
Definition appends {A : Type} (m : M A) : Prop :=
  forall w, exists rest, trace (m w).2 = trace w ++ rest.

End World.

#[global] Arguments event R : clear implicits.
#[global] Arguments world R {_}.
#[global] Arguments M R {_} A.

End Script.

(** ** [embed_dataset_using_pretrained_model.py] *)

Module EmbedDataset.
Import Py Pathlib Torch Encoders Script.

(** The namespace that [main]'s argument parser produces. *)
Record Namespace : Type := mkNamespace {
  model_path : option string;
  base_model_name : string;
  dataset_output_name : option string;
  output_parent_folder : option string;
  input_dataset_log_file : option string;
  batch_size : Z;
  remove_hdfs1_timestamp : bool;
  threads : Z
}.

Definition default_namespace : Namespace :=
  {| model_path := None; base_model_name := "distilbert-base-cased";
     dataset_output_name := None; output_parent_folder := None;
     input_dataset_log_file := None; batch_size := 256;
     remove_hdfs1_timestamp := false; threads := 1 |}.

(** What the script takes from outside: the file system, the [datasets]
    loader (one row per line of the text file), [remove_timestamp] of
    [dataset_utils] (on the [text] column), the tokenizer that
    [AutoTokenizer.from_pretrained] returns, called with
    [return_tensors='pt', truncation=True, padding=True], and the saved model
    found at a path. *)
Class Library (R : Type) `{Backend R} : Type := {
  fs : filesystem;
  load_dataset : Path -> list string;
  remove_timestamp : string -> string;
  AutoTokenizer_from_pretrained : string -> list string -> BatchEncoding;
  read_checkpoint : string -> checkpoint R
}.

Section Embed.
Context {R : Type} `{Backend R} `{!Library R}.

(** [encode_dataset]: one encoder call on the texts of a batch. The encoder
    object is returned next to the embedding, as the call leaves it. *)
Definition encode_dataset (texts : list string)
    (tokenizer : list string -> BatchEncoding)
    (encoder : DistilBertForClsEmbedding R)
  : M R (list (list R) * DistilBertForClsEmbedding R) :=
  fun w =>
    let enc := tokenizer texts in
    let '(out, encoder', g') :=
      forward encoder (gen w) (input_ids enc) (attention_mask enc) in
    match out with
    | inl e => (inl e, {| trace := trace w; gen := g' |})
    | inr o =>
        (inr (embedding o, encoder'),
         {| trace := trace w ++ [Forward texts (embedding o)]; gen := g' |})
    end.

(** [Dataset.map(encode_dataset, batched=True)] over the batches: every
    batch gains the [embedding] column, which must have one entry per row. *)
Fixpoint map_batched (tokenizer : list string -> BatchEncoding)
    (bs : list (list string)) (encoder : DistilBertForClsEmbedding R)
  : M R (list (string * list R) * DistilBertForClsEmbedding R) :=
  match bs with
  | [] => mret ([], encoder)
  | b :: bs' =>
      '(emb, encoder1) ← encode_dataset b tokenizer encoder;
      _ ← lift (if Nat.eqb (length emb) (length b) then inr tt
                else raise (RuntimeError "column length mismatch"));
      '(rows, encoder2) ← map_batched tokenizer bs' encoder1;
      mret ((zip b emb ++ rows)%list, encoder2)
  end.

(** The name of the output dataset (line 28). *)
Definition dataset_name (input_dataset_log_file model_path : string)
    (dataset_output_name : option string) : string :=
  match dataset_output_name with
  | None =>
      stem (parse input_dataset_log_file) +:+ "/embedding_from_"
      +:+ stem (parse model_path)
  | Some n => n
  end.

(** The output path (line 29). *)
Definition output_path (output_parent_folder input_dataset_log_file
    model_path : string) (dataset_output_name : option string) : Path :=
  truediv (parse output_parent_folder)
    (dataset_name input_dataset_log_file model_path dataset_output_name).

(** [embed_dataset]. The Python function returns [None]; here the result
    is the encoder object as the function leaves it, so that its final state
    can be spoken of. *)
Definition embed_dataset (config : Namespace)
  : M R (DistilBertForClsEmbedding R) :=
  model ← assert_given (model_path config) "Model path must be specified!";
  input ← assert_given (input_dataset_log_file config)
            "Input dataset must be specified!";
  parent ← assert_given (output_parent_folder config)
             "Output parent folder must be specified!";
  let dataset_path := parse input in
  let out := output_path parent input model (dataset_output_name config) in
  _ ← lift (assert (output_path_usable fs out)
              ("Output path " +:+ str out
               +:+ " is not empty, can't create dataset"));
  _ ← emit (LoadDataset dataset_path);
  let dataset := load_dataset dataset_path in
  let cleaned_dataset :=
    if remove_hdfs1_timestamp config then map remove_timestamp dataset
    else dataset in
  _ ← emit (LoadTokenizer (base_model_name config));
  let tokenizer := AutoTokenizer_from_pretrained (base_model_name config) in
  _ ← emit (LoadModel "DistilBertForClsEmbedding" model);
  let encoder_model := from_pretrained (read_checkpoint model) in
  let encoder_model := eval encoder_model in
  '(embedded_dataset, encoder_model) ←
    map_batched tokenizer (batches (batch_size config) cleaned_dataset)
      encoder_model;
  _ ← emit (SaveToDisk out embedded_dataset);
  mret encoder_model.

(** What [embed_dataset] does once its assertions have passed. *)
Definition embed_steps (config : Namespace) (model input : string) (out : Path)
  : M R (DistilBertForClsEmbedding R) :=
  _ ← emit (LoadDataset (parse input));
  let dataset := load_dataset (parse input) in
  let cleaned_dataset :=
    if remove_hdfs1_timestamp config then map remove_timestamp dataset
    else dataset in
  _ ← emit (LoadTokenizer (base_model_name config));
  let tokenizer := AutoTokenizer_from_pretrained (base_model_name config) in
  _ ← emit (LoadModel "DistilBertForClsEmbedding" model);
  let encoder_model := eval (from_pretrained (read_checkpoint model)) in
  '(embedded_dataset, encoder_model) ←
    map_batched tokenizer (batches (batch_size config) cleaned_dataset)
      encoder_model;
  _ ← emit (SaveToDisk out embedded_dataset);
  mret encoder_model.

End Embed.

End EmbedDataset.

(** ** [embed_labeled_dataset_for_anomaly_detection.py] *)

Module EmbedLabeled.
Import Py Pathlib Torch Encoders Script.

(** The namespace that [main]'s argument parser produces. *)
Record Namespace : Type := mkNamespace {
  model_path : option string;
  base_model_name : string;
  dataset_output_name : option string;
  output_parent_folder : option string;
  input_dataset_log_file : option string;
  input_dataset_labels_csv : option string
}.

Definition default_namespace : Namespace :=
  {| model_path := None; base_model_name := "distilbert-base-cased";
     dataset_output_name := None; output_parent_folder := None;
     input_dataset_log_file := None; input_dataset_labels_csv := None |}.

(** An encoder class, as the script uses one: its [__name__], the objects
    it builds, [from_pretrained], [eval], and a call that returns an output
    with an [embedding] field. *)
Record encoder_class (R : Type) `{Backend R} : Type := mkClass {
  __name__ : string;
  instance : Type;
  cls_from_pretrained : string -> instance;
  cls_eval : instance -> instance;
  cls_call : instance -> generator -> BatchEncoding ->
             result (EmbeddingOutput R) * instance * generator
}.

#[global] Arguments __name__ {R _} _.
#[global] Arguments instance {R _} _.
#[global] Arguments cls_from_pretrained {R _} _ _.
#[global] Arguments cls_eval {R _} _ _.
#[global] Arguments cls_call {R _} _ _ _ _.

(** One row of the labels file, as text. *)
Record csv_row : Type := mkRow {
  BlockId : string;
  Label : string
}.

(** What the script takes from outside: the file system, the grouped loader
    of [dataset_utils] (block id to the lines of the block), the rows of the
    labels file, the tokenizer, the saved model configuration, and the table
    [KNOWN_ENCODER_CLASSES] that the script imports from [encoders]. *)
Class Library (R : Type) `{Backend R} : Type := {
  fs : filesystem;
  load_hdfs1_log_file_grouped : Path -> gmap string (list string);
  read_csv : Path -> list csv_row;
  AutoTokenizer_from_pretrained : string -> list string -> BatchEncoding;
  AutoConfig_from_pretrained : string -> PretrainedConfig;
  KNOWN_ENCODER_CLASSES : dict (encoder_class R)
}.

Section Embed.
Context {R : Type} `{Backend R}.

(** [DistilBertForClsEmbedding] as an encoder class, given the saved models
    that [from_pretrained] finds. *)
Definition DistilBertForClsEmbedding_class
    (read_checkpoint : string -> checkpoint R) : encoder_class R :=
  {| __name__ := "DistilBertForClsEmbedding";
     instance := DistilBertForClsEmbedding R;
     cls_from_pretrained := fun path => from_pretrained (read_checkpoint path);
     cls_eval := eval;
     cls_call := fun self g enc =>
       forward self g (input_ids enc) (attention_mask enc) |}.

(** [encode_batch]: one encoder call on all the texts of [batch]. The encoder
    object is returned next to the embedding, as the call leaves it. *)
Definition encode_batch {c : encoder_class R} (batch : list string)
    (tokenizer : list string -> BatchEncoding) (encoder : instance c)
  : M R (list (list R) * instance c) :=
  fun w =>
    let '(out, encoder', g') := cls_call c encoder (gen w) (tokenizer batch) in
    match out with
    | inl e => (inl e, {| trace := trace w; gen := g' |})
    | inr o =>
        (inr (embedding o, encoder'),
         {| trace := trace w ++ [Forward batch (embedding o)]; gen := g' |})
    end.

(** The dictionary comprehension of line 63, over the items of the
    dataset: [acc] is the dictionary built so far. *)
Fixpoint embed_blocks {c : encoder_class R}
    (tokenizer : list string -> BatchEncoding)
    (items : list (string * list string))
    (encoder : instance c) (acc : gmap string (list (list R)))
  : M R (gmap string (list (list R)) * instance c) :=
  match items with
  | [] => mret (acc, encoder)
  | (block_id, block_lines) :: items' =>
      '(arr, encoder1) ← encode_batch block_lines tokenizer encoder;
      embed_blocks tokenizer items' encoder1 (<[block_id := arr]> acc)
  end.

(** The converter given to [read_csv] for the [Label] column. *)
Definition Label_converter (x : string) : bool := String.eqb x "Anomaly".

(** [to_numpy(dtype=np.int8)] on a column of booleans. *)
Definition to_int8 (b : bool) : Z := if b then 1 else 0.

(** [model_config.architectures[0]]. *)
Definition first_architecture (cfg : PretrainedConfig) : result string :=
  match architectures cfg with
  | None => raise TypeError
  | Some [] => raise IndexError
  | Some (a :: _) => inr a
  end.

(** [embedded_dataset[block_id]]. *)
Definition block_embedding (embedded : gmap string (list (list R)))
    (block_id : string) : result (list (list R)) :=
  match embedded !! block_id with
  | Some arr => inr arr
  | None => raise (KeyError block_id)
  end.

(** The name of the output dataset (line 38). *)
Definition dataset_name (input_dataset_log_file model_path : string)
    (dataset_output_name : option string) : string :=
  match dataset_output_name with
  | None =>
      stem (parse input_dataset_log_file) +:+ "/labeled_embedding_from_"
      +:+ stem (parse model_path)
  | Some n => n
  end.

(** The output path (line 39). *)
Definition output_path (output_parent_folder input_dataset_log_file
    model_path : string) (dataset_output_name : option string) : Path :=
  truediv (parse output_parent_folder)
    (dataset_name input_dataset_log_file model_path dataset_output_name).

(** [arr] is what a call of the class [c] returned for the texts. *)
Definition returned_by (c : encoder_class R)
    (tokenizer : list string -> BatchEncoding) (texts : list string)
    (arr : list (list R)) : Prop :=
  exists (self self' : instance c) (g g' : generator) out,
    cls_call c self g (tokenizer texts) = (inr out, self', g') /\
    arr = embedding out.



Context `{!Library R}.

(** [embed_dataset]. *)
Definition embed_dataset (config : Namespace) : M R unit :=
  model ← assert_given (model_path config) "Model path must be specified!";
  input ← assert_given (input_dataset_log_file config)
            "Input dataset must be specified!";
  labels ← assert_given (input_dataset_labels_csv config)
             "Input dataset labels must be specified!";
  parent ← assert_given (output_parent_folder config)
             "Output parent folder must be specified!";
  let dataset_path := parse input in
  let label_path := parse labels in
  let out := output_path parent input model (dataset_output_name config) in
  _ ← lift (assert (output_path_usable fs out)
              ("Output path " +:+ str out
               +:+ " is not empty, can't create dataset"));
  _ ← emit (LoadDataset dataset_path);
  let dataset := load_hdfs1_log_file_grouped dataset_path in
  _ ← emit (ReadCsv label_path);
  let labels_df :=
    map (fun r => (BlockId r, Label_converter (Label r))) (read_csv label_path) in
  _ ← emit (LoadTokenizer (base_model_name config));
  let tokenizer := AutoTokenizer_from_pretrained (base_model_name config) in
  let available_encoder_classes_dict :=
    dict_by __name__ (dict_values KNOWN_ENCODER_CLASSES) in
  _ ← emit (LoadConfig model);
  let model_config := AutoConfig_from_pretrained model in
  arch ← lift (first_architecture model_config);
  encoder_model_class ← lift (dict_get available_encoder_classes_dict arch);
  _ ← emit (LoadModel (__name__ encoder_model_class) model);
  let encoder_model := cls_from_pretrained encoder_model_class model in
  let encoder_model := cls_eval encoder_model_class encoder_model in
  '(embedded_dataset, _) ←
    embed_blocks tokenizer (map_to_list dataset) encoder_model ∅;
  ordered_by_label ←
    lift (traverse (block_embedding embedded_dataset) (map fst labels_df));
  _ ← emit (Mkdir out);
  let X_path := child out "X.pickle" in
  let y_path := child out "y.npy" in
  _ ← emit (PickleDump X_path ordered_by_label);
  _ ← emit (NpSave y_path (map (fun r => to_int8 (snd r)) labels_df));
  mret tt.

(** The labels column after the converter. *)
Definition labels_of (rows : list csv_row) : list (string * bool) :=
  map (fun r => (BlockId r, Label_converter (Label r))) rows.

(** The last lines of [embed_dataset]: ordering and writing. *)
Definition save_steps (out : Path) (labels_df : list (string * bool))
    (embedded : gmap string (list (list R))) : M R unit :=
  ordered_by_label ←
    lift (traverse (block_embedding embedded) (map fst labels_df));
  _ ← emit (Mkdir out);
  _ ← emit (PickleDump (child out "X.pickle") ordered_by_label);
  _ ← emit (NpSave (child out "y.npy")
              (map (fun r => to_int8 (snd r)) labels_df));
  mret tt.

(** [embed_dataset] from the moment the encoder class is known. *)
Definition encode_steps (model : string) (out : Path)
    (dataset : gmap string (list string)) (labels_df : list (string * bool))
    (tokenizer : list string -> BatchEncoding) (c : encoder_class R)
  : M R unit :=
  _ ← emit (LoadModel (__name__ c) model);
  '(embedded_dataset, _) ←
    embed_blocks tokenizer (map_to_list dataset)
      (cls_eval c (cls_from_pretrained c model)) ∅;
  save_steps out labels_df embedded_dataset.

(** The four loads that precede the choice of the encoder class. *)
Definition loads (config : Namespace) (model input labels : string)
  : list (event R) :=
  [LoadDataset (parse input); ReadCsv (parse labels);
   LoadTokenizer (base_model_name config); LoadConfig model].

(** [embed_dataset] once its assertions have passed. *)
Definition embed_steps (config : Namespace) (model input labels : string)
    (out : Path) : M R unit :=
  _ ← emit (LoadDataset (parse input));
  _ ← emit (ReadCsv (parse labels));
  _ ← emit (LoadTokenizer (base_model_name config));
  _ ← emit (LoadConfig model);
  arch ← lift (first_architecture (AutoConfig_from_pretrained model));
  c ← lift (dict_get (dict_by __name__ (dict_values KNOWN_ENCODER_CLASSES))
              arch);
  encode_steps model out (load_hdfs1_log_file_grouped (parse input))
    (labels_of (read_csv (parse labels)))
    (AutoTokenizer_from_pretrained (base_model_name config)) c.

End Embed.

End EmbedLabeled.

(** ** A small backend to run the model on

    Integer scalars, a DistilBERT body that is a single offset, and a
    generator that counts the dropout draws. In training mode the stand-in
    body drops positions according to the generator and advances it; in
    evaluation mode it does neither. *)

Module Demo.
Import Py Pathlib Torch Encoders Script.

#[global] Instance Z_scalar : Scalar Z :=
  {| Rzero := 0%Z; Radd := Z.add; Rmul := Z.mul |}.

(** The hidden vector of one token: two features. *)
Definition demo_token (offset : Z) (drop : bool) (t : Z) : list Z :=
  if drop then [0; 0]%Z else [(t + offset)%Z; (2 * t)%Z].

Definition demo_forward (offset : Z) (training : bool) (g : nat)
    (ids mask : list (list Z)) : list (list (list Z)) * Z * nat :=
  (map (map (demo_token offset (training && Nat.odd g))) ids,
   offset,
   if training then S g else g).

#[global] Instance Z_backend : Backend Z :=
  {| backend_scalar := Z_scalar;
     DistilBertModel := Z;
     generator := nat;
     DistilBertModel_forward := demo_forward |}.

(** A tokenizer that maps every text to [[CLS] length [SEP]]. *)
Definition demo_tokenizer (name : string) (texts : list string) : BatchEncoding :=
  {| input_ids := map (fun s => [101; Z.of_nat (String.length s); 102]%Z) texts;
     attention_mask := map (fun _ => [1; 1; 1]%Z) texts |}.

Definition demo_config : PretrainedConfig :=
  {| dim := 2;
     task_specific_params := Some {[ "cls_embedding_dimension" := 3 ]};
     architectures := Some ["DistilBertForClsEmbedding"] |}.

Definition demo_values : state_values Z :=
  {| body_values := 1%Z;
     weight_values := fun i j => Z.of_nat (i + j);
     bias_values := fun i => Z.of_nat i |}.

Definition demo_checkpoint (path : string) : checkpoint Z :=
  {| ckpt_config := demo_config; ckpt_values := demo_values |}.

Definition demo_model : DistilBertForClsEmbedding Z :=
  from_pretrained (demo_checkpoint "models/run_1").

(** A file system with an empty directory, a directory with an entry and a
    regular file. *)
Definition demo_fs : filesystem := fun p =>
  if String.eqb (str p) "data/empty" then Some (Directory [])
  else if String.eqb (str p) "data/full" then Some (Directory ["old"])
  else if String.eqb (str p) "data/file" then Some RegularFile
  else if String.eqb (str p) "data" then
    Some (Directory ["empty"; "full"; "file"])
  else None.

#[global] Instance demo_raw_library : EmbedDataset.Library Z :=
  {| EmbedDataset.fs := demo_fs;
     EmbedDataset.load_dataset := fun _ => ["081109 a"; "081109 bcd"; "081110 ef"];
     EmbedDataset.remove_timestamp := fun s => String.substring 7 (String.length s - 7) s;
     EmbedDataset.AutoTokenizer_from_pretrained := demo_tokenizer;
     EmbedDataset.read_checkpoint := demo_checkpoint |}.

Definition demo_raw_config : EmbedDataset.Namespace :=
  {| EmbedDataset.model_path := Some "models/run_1";
     EmbedDataset.base_model_name := "distilbert-base-cased";
     EmbedDataset.dataset_output_name := None;
     EmbedDataset.output_parent_folder := Some "data/out";
     EmbedDataset.input_dataset_log_file := Some "logs/HDFS1.log";
     EmbedDataset.batch_size := 2;
     EmbedDataset.remove_hdfs1_timestamp := true;
     EmbedDataset.threads := 1 |}.

Definition demo_classes : dict (EmbedLabeled.encoder_class Z) :=
  [("DistilbertCls", EmbedLabeled.DistilBertForClsEmbedding_class demo_checkpoint)].

#[global] Instance demo_labeled_library : EmbedLabeled.Library Z :=
  {| EmbedLabeled.fs := demo_fs;
     EmbedLabeled.load_hdfs1_log_file_grouped := fun _ =>
       {[ "blk_1" := ["a"; "bcd"]; "blk_2" := ["ef"] ]};
     EmbedLabeled.read_csv := fun _ =>
       [EmbedLabeled.mkRow "blk_2" "Anomaly";
        EmbedLabeled.mkRow "blk_1" "Normal";
        EmbedLabeled.mkRow "blk_2" "Anomaly"];
     EmbedLabeled.AutoTokenizer_from_pretrained := demo_tokenizer;
     EmbedLabeled.AutoConfig_from_pretrained := fun _ => demo_config;
     EmbedLabeled.KNOWN_ENCODER_CLASSES := demo_classes |}.

(** The same surroundings, but the saved configuration names an
    architecture that is not among the known classes. *)
Definition demo_unknown_library : EmbedLabeled.Library Z :=
  {| EmbedLabeled.fs := demo_fs;
     EmbedLabeled.load_hdfs1_log_file_grouped := fun _ =>
       {[ "blk_1" := ["a"; "bcd"]; "blk_2" := ["ef"] ]};
     EmbedLabeled.read_csv := fun _ =>
       [EmbedLabeled.mkRow "blk_2" "Anomaly";
        EmbedLabeled.mkRow "blk_1" "Normal"];
     EmbedLabeled.AutoTokenizer_from_pretrained := demo_tokenizer;
     EmbedLabeled.AutoConfig_from_pretrained := fun _ =>
       {| dim := 2; task_specific_params := None;
          architectures := Some ["BertModel"] |};
     EmbedLabeled.KNOWN_ENCODER_CLASSES := demo_classes |}.

Definition demo_labeled_config : EmbedLabeled.Namespace :=
  {| EmbedLabeled.model_path := Some "models/run_1";
     EmbedLabeled.base_model_name := "distilbert-base-cased";
     EmbedLabeled.dataset_output_name := None;
     EmbedLabeled.output_parent_folder := Some "data/out";
     EmbedLabeled.input_dataset_log_file := Some "logs/HDFS1.log";
     EmbedLabeled.input_dataset_labels_csv := Some "logs/labels.csv" |}.

Definition demo_world : world Z := {| trace := []; gen := 5 |}.

(** A configuration that passes every assertion of [run_experiment]. *)
Definition sample_namespace : TrainIct.Namespace :=
  {| TrainIct.two_tower := 1;
     TrainIct.fp16 := true;
     TrainIct.bert_model := "distilbert-base-cased";
     TrainIct.encoder_type := "DistilbertCls";
     TrainIct.train_batch_size := 64;
     TrainIct.epochs := 1;
     TrainIct.logging_steps := 10;
     TrainIct.eval_steps := 500;
     TrainIct.save_steps := 500;
     TrainIct.save_total_limit := 25;
     TrainIct.eval_batch_size := 64;
     TrainIct.target_max_seq_len := 512;
     TrainIct.context_max_seq_len := 512;
     TrainIct.output_encode_dim := 100;
     TrainIct.checkpoint_directory := None;
     TrainIct.seed := 42;
     TrainIct.dataset_name := Some "HDFS1";
     TrainIct.train_dataset := Some "data/train";
     TrainIct.eval_dataset := Some "data/eval";
     TrainIct.wandb_project := None |}.

Definition sample_classes : dict nat := [("DistilbertCls", 0)].

Definition sample_tokenizer (name : string) : TrainIct.Tokenizer :=
  {| TrainIct.pad_token_id := 0;
     TrainIct.cls_token_id := 101;
     TrainIct.sep_token_id := 102 |}.

(** A run that finds a regular file at the output path. *)
Definition demo_blocked_config : EmbedDataset.Namespace :=
  {| EmbedDataset.model_path := Some "models/run_1";
     EmbedDataset.base_model_name := "distilbert-base-cased";
     EmbedDataset.dataset_output_name := Some "file";
     EmbedDataset.output_parent_folder := Some "data";
     EmbedDataset.input_dataset_log_file := Some "logs/HDFS1.log";
     EmbedDataset.batch_size := 2;
     EmbedDataset.remove_hdfs1_timestamp := true;
     EmbedDataset.threads := 1 |}.

End Demo.

(** ** Further vocabulary for the runs *)

Module Observations.
Import Py Pathlib Torch Encoders Script.

Section Events.
Context {R : Type} `{Backend R}.

(** Is this event a write to the file system? *)
Definition is_write (e : event R) : bool :=
  match e with
  | Mkdir _ | PickleDump _ _ | NpSave _ _ | SaveToDisk _ _ => true
  | _ => false
  end.

End Events.

(** Surroundings in which the labels file names a block that the log does
    not have. *)
Definition demo_missing_block_library : EmbedLabeled.Library Z :=
  {| EmbedLabeled.fs := Demo.demo_fs;
     EmbedLabeled.load_hdfs1_log_file_grouped := fun _ =>
       {[ "blk_1" := ["a"; "bcd"]; "blk_2" := ["ef"] ]};
     EmbedLabeled.read_csv := fun _ =>
       [EmbedLabeled.mkRow "blk_2" "Anomaly";
        EmbedLabeled.mkRow "blk_7" "Normal";
        EmbedLabeled.mkRow "blk_1" "Normal"];
     EmbedLabeled.AutoTokenizer_from_pretrained := Demo.demo_tokenizer;
     EmbedLabeled.AutoConfig_from_pretrained := fun _ => Demo.demo_config;
     EmbedLabeled.KNOWN_ENCODER_CLASSES := Demo.demo_classes |}.

(** Surroundings in which the saved configuration lists no architecture. *)
Definition demo_no_architecture_library : EmbedLabeled.Library Z :=
  {| EmbedLabeled.fs := Demo.demo_fs;
     EmbedLabeled.load_hdfs1_log_file_grouped := fun _ =>
       {[ "blk_1" := ["a"; "bcd"]; "blk_2" := ["ef"] ]};
     EmbedLabeled.read_csv := fun _ =>
       [EmbedLabeled.mkRow "blk_2" "Anomaly";
        EmbedLabeled.mkRow "blk_1" "Normal"];
     EmbedLabeled.AutoTokenizer_from_pretrained := Demo.demo_tokenizer;
     EmbedLabeled.AutoConfig_from_pretrained := fun _ =>
       {| Encoders.dim := 2; Encoders.task_specific_params := None;
          Encoders.architectures := None |};
     EmbedLabeled.KNOWN_ENCODER_CLASSES := Demo.demo_classes |}.

(** A second saved model, with another offset in its body. *)
Definition other_checkpoint (path : string) : checkpoint Z :=
  {| ckpt_config := Demo.demo_config;
     ckpt_values := {| body_values := 7%Z;
                       weight_values := fun i j => Z.of_nat (i + j);
                       bias_values := fun i => Z.of_nat i |} |}.

(** Surroundings in which two keys of the table hold classes of the same
    name. *)
Definition demo_duplicate_library : EmbedLabeled.Library Z :=
  {| EmbedLabeled.fs := Demo.demo_fs;
     EmbedLabeled.load_hdfs1_log_file_grouped := fun _ =>
       {[ "blk_1" := ["a"; "bcd"]; "blk_2" := ["ef"] ]};
     EmbedLabeled.read_csv := fun _ =>
       [EmbedLabeled.mkRow "blk_2" "Anomaly";
        EmbedLabeled.mkRow "blk_1" "Normal"];
     EmbedLabeled.AutoTokenizer_from_pretrained := Demo.demo_tokenizer;
     EmbedLabeled.AutoConfig_from_pretrained := fun _ => Demo.demo_config;
     EmbedLabeled.KNOWN_ENCODER_CLASSES :=
       [("DistilbertCls",
         EmbedLabeled.DistilBertForClsEmbedding_class Demo.demo_checkpoint);
        ("default",
         EmbedLabeled.DistilBertForClsEmbedding_class other_checkpoint)] |}.

End Observations.

(** * Properties *)

(** ** Strings *)

Module PyFacts.
Import Py.

#[local] Arguments String.append !_ _ / : simpl nomatch.

Example str_of_int_neg : str_of_int (-120) = "-120".
Proof. reflexivity. Qed.

Example str_of_int_zero : str_of_int 0 = "0".
Proof. reflexivity. Qed.

Example str_in_middle : str_in "2T" "a 2T b" = true.
Proof. reflexivity. Qed.

Example split_join : join "/" (split_chr "/" "a//b/") = "a//b/".
Proof. reflexivity. Qed.

Example replace_spaces : replace_chr " " "_" "a b  c" = "a_b__c".
Proof. reflexivity. Qed.

Lemma chr_in_app c s t : chr_in c (s +:+ t) = chr_in c s || chr_in c t.
Proof.
  induction s as [|b s IH]; simpl; [done|].
  by rewrite IH, orb_assoc.
Qed.

Lemma startswith_nil_r sub : startswith sub "" = true -> sub = "".
Proof. by destruct sub. Qed.

Lemma startswith_app sub r : startswith sub (sub +:+ r) = true.
Proof.
  induction sub as [|a sub IH]; simpl; [done|].
  by rewrite Ascii.eqb_refl.
Qed.

Lemma startswith_split sub s :
  startswith sub s = true -> exists r, s = sub +:+ r.
Proof.
  revert s. induction sub as [|a sub IH]; intros s; simpl.
  - by exists s.
  - destruct s as [|b s]; [done|].
    intros [Hab Hs]%andb_true_iff. apply Ascii.eqb_eq in Hab as ->.
    destruct (IH _ Hs) as [r ->]. by exists r.
Qed.

Lemma str_in_startswith sub s : startswith sub s = true -> str_in sub s = true.
Proof. intros Hs. destruct s; simpl in *; by rewrite Hs. Qed.

Lemma str_in_app_r sub s t : str_in sub t = true -> str_in sub (s +:+ t) = true.
Proof.
  intros Ht. induction s as [|b s IH]; simpl; [done|].
  rewrite IH. apply orb_true_r.
Qed.

(** [str_in] is the substring relation. *)
Lemma str_in_spec sub s :
  str_in sub s = true <-> exists l r, s = l +:+ sub +:+ r.
Proof.
  split.
  - induction s as [|b s IH]; simpl.
    + rewrite orb_false_r. intros ->%startswith_nil_r. by exists "", "".
    + intros [Hs|Hs]%orb_true_iff.
      * destruct (startswith_split _ _ Hs) as [r Hr]. by exists "", r.
      * destruct (IH Hs) as (l & r & ->). by exists (String b l), r.
  - intros (l & r & ->). apply str_in_app_r, str_in_startswith, startswith_app.
Qed.

(** A character of a substring is a character of the string. *)
Lemma startswith_chr_in sub s c :
  startswith sub s = true -> chr_in c sub = true -> chr_in c s = true.
Proof.
  intros [r ->]%startswith_split Hc. rewrite chr_in_app, Hc. done.
Qed.

Lemma str_in_chr_in sub s c :
  str_in sub s = true -> chr_in c sub = true -> chr_in c s = true.
Proof.
  intros (l & r & ->)%str_in_spec Hc.
  rewrite !chr_in_app, Hc. apply orb_true_r.
Qed.

Lemma str_in_without_chr sub s c :
  chr_in c sub = true -> chr_in c s = false -> str_in sub s = false.
Proof.
  intros Hc Hs. destruct (str_in sub s) eqn:E; [|done].
  by rewrite (str_in_chr_in _ _ _ E Hc) in Hs.
Qed.

(** Dropping the first character of the needle keeps it a substring. *)
Lemma str_in_tail a sub s : str_in (String a sub) s = true -> str_in sub s = true.
Proof.
  intros (l & r & ->)%str_in_spec. apply str_in_spec.
  exists (l +:+ String a ""), r.
  induction l as [|b l IH]; simpl in *; congruence.
Qed.

(** A needle without the separator cannot straddle it. *)
Lemma startswith_app_sep sub c s t :
  chr_in c sub = false ->
  startswith sub (s +:+ String c t) = startswith sub s.
Proof.
  revert s. induction sub as [|a sub IH]; intros s Hc; simpl; [done|].
  simpl in Hc. apply orb_false_iff in Hc as [Hca Hsub].
  destruct s as [|b s]; simpl.
  - by rewrite Ascii.eqb_sym, Hca.
  - by rewrite IH.
Qed.

Lemma str_in_app_sep sub c s t :
  chr_in c sub = false ->
  str_in sub (s +:+ String c t) = str_in sub s || str_in sub t.
Proof.
  intros Hc. induction s as [|b s IH].
  - pose proof (startswith_app_sep sub c "" t Hc) as E.
    simpl in E |- *. by rewrite E, orb_false_r.
  - pose proof (startswith_app_sep sub c (String b s) t Hc) as E.
    simpl in E |- *. by rewrite E, IH, orb_assoc.
Qed.

Lemma chr_in_string_of_uint c d :
  chr_in c (NilEmpty.string_of_uint d) = true -> is_int_chr c = true.
Proof.
  unfold is_int_chr.
  induction d; simpl; intros Hc; try done;
    apply orb_true_iff in Hc as [Hc|Hc];
    try (apply IHd in Hc; exact Hc);
    apply Ascii.eqb_eq in Hc as ->; reflexivity.
Qed.

Lemma chr_in_str_of_int c n :
  chr_in c (str_of_int n) = true -> is_int_chr c = true.
Proof.
  unfold str_of_int, NilZero.string_of_int, NilZero.string_of_uint.
  destruct (Z.to_int n) as [d|d]; simpl.
  - destruct d; try apply chr_in_string_of_uint.
    simpl. intros Hc. apply orb_true_iff in Hc as [Hc|Hc]; [|done].
    apply Ascii.eqb_eq in Hc as ->. reflexivity.
  - intros [Hc|Hc]%orb_true_iff.
    + apply Ascii.eqb_eq in Hc as ->. reflexivity.
    + destruct d; try (revert Hc; apply chr_in_string_of_uint).
      simpl in Hc. apply orb_true_iff in Hc as [Hc|Hc]; [|done].
      apply Ascii.eqb_eq in Hc as ->. reflexivity.
Qed.

Lemma str_of_int_without c n : is_int_chr c = false -> chr_in c (str_of_int n) = false.
Proof.
  intros Hc. destruct (chr_in c (str_of_int n)) eqn:E; [|done].
  by rewrite (chr_in_str_of_int _ _ E) in Hc.
Qed.

(** After [replace(old, new)] no [old] is left. *)
Lemma chr_in_replace_chr old new s :
  old <> new -> chr_in old (replace_chr old new s) = false.
Proof.
  intros Hne. induction s as [|b s IH]; simpl; [done|].
  rewrite IH, orb_false_r.
  destruct (Ascii.eqb b old) eqn:E.
  - by apply Ascii.eqb_neq.
  - by rewrite Ascii.eqb_sym.
Qed.

(** The pieces of a split hold only characters of the string. *)
Lemma chr_in_split_chr c sep s w :
  w ∈ split_chr sep s -> chr_in c w = true -> chr_in c s = true.
Proof.
  revert w. induction s as [|b s IH]; intros w; simpl.
  - by intros ->%list_elem_of_singleton.
  - destruct (Ascii.eqb b sep).
    + intros [->|Hw]%elem_of_cons; [done|].
      intros Hc. rewrite (IH _ Hw Hc). apply orb_true_r.
    + destruct (split_chr sep s) as [|w0 ws] eqn:E.
      * intros ->%list_elem_of_singleton. simpl.
        rewrite orb_false_r. by intros ->.
      * intros [->|Hw]%elem_of_cons; simpl.
        -- intros [Hc|Hc]%orb_true_iff; [by rewrite Hc|].
           rewrite (IH w0); [apply orb_true_r|left|done].
        -- intros Hc. rewrite (IH w); [apply orb_true_r|by right|done].
Qed.

Lemma split_chr_nonempty sep s : split_chr sep s <> [].
Proof.
  destruct s as [|b s]; simpl; [done|].
  destruct (Ascii.eqb b sep); [done|]. by destruct (split_chr sep s).
Qed.

(** Reading a dictionary after a store. *)
Lemma dict_get_set {V : Type} (d : dict V) k v k' :
  dict_get (dict_set d k v) k'
  = if String.eqb k k' then inr v else dict_get d k'.
Proof.
  induction d as [|[k0 v0] d IH]; simpl; [done|].
  destruct (String.eqb k0 k) eqn:E0; simpl.
  - apply String.eqb_eq in E0 as ->. by destruct (String.eqb k k').
  - rewrite IH. destruct (String.eqb k0 k') eqn:E1; [|done].
    apply String.eqb_eq in E1 as ->. by rewrite String.eqb_sym, E0.
Qed.

Lemma find_snoc {A : Type} (p : A -> bool) xs x :
  List.find p (xs ++ [x])
  = match List.find p xs with
    | Some y => Some y
    | None => if p x then Some x else None
    end.
Proof.
  induction xs as [|y xs IH]; simpl; [done|]. by destruct (p y).
Qed.

(** [{key(x): x for x in xs}] maps a key to the last element that has it. *)
Lemma dict_by_get {V : Type} (key : V -> string) xs k :
  dict_get (dict_by key xs) k
  = match List.find (fun x => String.eqb (key x) k) (rev xs) with
    | Some x => inr x
    | None => raise (KeyError k)
    end.
Proof.
  unfold dict_by. change (raise (KeyError k)) with (dict_get (@nil (string * V)) k).
  generalize (@nil (string * V)) as d.
  induction xs as [|x xs IH]; intros d; simpl; [done|].
  rewrite IH, find_snoc, dict_get_set.
  destruct (List.find _ (rev xs)); [done|].
  by destruct (String.eqb (key x) k).
Qed.

Lemma dict_by_get_inr {V : Type} (key : V -> string) xs k x :
  dict_get (dict_by key xs) k = inr x -> key x = k /\ x ∈ xs.
Proof.
  rewrite dict_by_get.
  destruct (List.find _ (rev xs)) as [y|] eqn:E; [|done].
  intros [= <-]. apply List.find_some in E as [Hin Hk].
  split; [by apply String.eqb_eq|].
  apply list_elem_of_In. by apply List.in_rev.
Qed.

Lemma dict_by_get_missing {V : Type} (key : V -> string) xs k :
  (forall x, x ∈ xs -> key x <> k) ->
  dict_get (dict_by key xs) k = inl (KeyError k).
Proof.
  intros Hnone. rewrite dict_by_get.
  destruct (List.find _ (rev xs)) as [y|] eqn:E; [|done].
  apply List.find_some in E as [Hin Hk]. apply String.eqb_eq in Hk.
  destruct (Hnone y); [|done].
  apply list_elem_of_In. by apply List.in_rev.
Qed.

Lemma dict_by_get_present {V : Type} (key : V -> string) xs k x :
  x ∈ xs -> key x = k -> exists y, dict_get (dict_by key xs) k = inr y.
Proof.
  intros Hin Hk. rewrite dict_by_get.
  destruct (List.find _ (rev xs)) as [y|] eqn:E; [by exists y|].
  assert (String.eqb (key x) k = false) as Hfalse.
  { apply (List.find_none _ _ E x).
    apply List.in_rev. rewrite List.rev_involutive. by apply list_elem_of_In. }
  by rewrite Hk, String.eqb_refl in Hfalse.
Qed.


(** A comprehension succeeds exactly when every element does, and then
    yields the results in order. *)
Lemma traverse_inr {A B : Type} (f : A -> result B) xs ys :
  traverse f xs = inr ys <-> Forall2 (fun x y => f x = inr y) xs ys.
Proof.
  revert ys. induction xs as [|x xs IH]; intros ys; simpl.
  - split.
    + intros [= <-]. constructor.
    + by inversion 1.
  - destruct (f x) as [e|y] eqn:Ex.
    + split; [done|]. inversion 1; congruence.
    + destruct (traverse f xs) as [e|ys'] eqn:Exs.
      * split; [done|]. inversion 1 as [|???? _ Hxs]; subst.
        by apply IH in Hxs.
      * split.
        -- intros [= <-]. constructor; [done|]. by apply IH.
        -- inversion 1 as [|???? Hy Hxs]; subst.
           apply IH in Hxs. congruence.
Qed.


Lemma traverse_total {A B : Type} (f : A -> result B) xs :
  Forall (fun x => exists y, f x = inr y) xs ->
  exists ys, traverse f xs = inr ys.
Proof.
  induction 1 as [|x xs [y Hy] _ [ys IH]]; simpl.
  - by exists [].
  - rewrite Hy, IH. by exists (y :: ys).
Qed.

Lemma traverse_length {A B : Type} (f : A -> result B) xs ys :
  traverse f xs = inr ys -> length ys = length xs.
Proof. intros H%traverse_inr. symmetry. by eapply Forall2_length. Qed.

End PyFacts.

(** ** Run names and tower selection *)

Module TrainIctFacts.
Import Py PyFacts TrainIct Demo.

#[local] Arguments String.append !_ _ / : simpl nomatch.
#[local] Arguments str_of_int : simpl never.

Example run_name_default :
  get_run_name 0 false "HDFS1" 42 512 512 64 64 100
    "DistilbertCls" "distilbert-base-cased"
  = "DistilbertCls distilbert-base-cased 1T HDFS1 Seed-42 T-len 512 C-len 512 Tr-batch 64 Ev-b 64 O-dim 100".
Proof. reflexivity. Qed.

Example run_name_two_tower_fp16 :
  get_run_name 1 true "HDFS1" (-7) 128 256 32 16 512 "DistilbertCls" "ckpt"
  = "DistilbertCls ckpt 2T fp16 HDFS1 Seed--7 T-len 128 C-len 256 Tr-batch 32 Ev-b 16 O-dim 512".
Proof. reflexivity. Qed.

Example run_experiment_sample :
  match run_experiment sample_classes sample_tokenizer sample_namespace with
  | inr e => Some (training_args e)
  | inl _ => None
  end
  = Some
      {| output_dir := "../../models/ICT/DistilbertCls_distilbert-base-cased_2T_fp16_HDFS1_Seed-42_T-len_512_C-len_512_Tr-batch_64_Ev-b_64_O-dim_100";
         ta_fp16 := true; num_train_epochs := 1;
         per_device_eval_batch_size := 64; per_device_train_batch_size := 64;
         warmup_steps := 1000; weight_decay := "0.01";
         logging_dir := "../../logs"; ta_logging_steps := 10;
         logging_first_step := true; ta_eval_steps := 500;
         evaluation_strategy := "steps"; prediction_loss_only := true;
         ta_save_steps := 500; ta_save_total_limit := 25;
         dataloader_drop_last := true; label_names := ["target"; "context"];
         ta_seed := 42;
         run_name := "DistilbertCls distilbert-base-cased 2T fp16 HDFS1 Seed-42 T-len 512 C-len 512 Tr-batch 64 Ev-b 64 O-dim 100";
         remove_unused_columns := false |}.
Proof. reflexivity. Qed.

Lemma get_run_name_join tt fp ds seed t c tr ev od enc ckpt :
  get_run_name tt fp ds seed t c tr ev od enc ckpt
  = join " " (run_name_words tt fp ds seed t c tr ev od enc ckpt).
Proof.
  unfold get_run_name, run_name_words.
  destruct (truthy tt), fp; reflexivity.
Qed.

(** A needle without the separator occurs in a joined string exactly when it
    occurs in one of the words. *)
Lemma str_in_join sub c ws :
  chr_in c sub = false -> sub <> "" ->
  str_in sub (join (String c "") ws) = existsb (str_in sub) ws.
Proof.
  intros Hc Hsub. induction ws as [|w ws IH].
  - simpl. destruct sub; [done|]. done.
  - destruct ws as [|w' ws].
    + simpl. by rewrite orb_false_r.
    + change (join (String c "") (w :: w' :: ws))
        with (w +:+ String c (join (String c "") (w' :: ws))).
      rewrite str_in_app_sep, IH by done. done.
Qed.

Lemma str_in_str_of_int sub c n :
  chr_in c sub = true -> is_int_chr c = false -> str_in sub (str_of_int n) = false.
Proof.
  intros Hc Hint. eapply str_in_without_chr; [done|].
  by apply str_of_int_without.
Qed.

Lemma str_in_seed sub c n :
  chr_in c sub = true -> is_int_chr c = false -> chr_in c "Seed-" = false ->
  str_in sub ("Seed-" +:+ str_of_int n) = false.
Proof.
  intros Hc Hint Hseed. eapply str_in_without_chr; [done|].
  by rewrite chr_in_app, Hseed, str_of_int_without.
Qed.

(** Where the marker [2T] can come from. *)
Lemma str_in_2T tt fp ds seed t c tr ev od enc ckpt :
  str_in "2T" (get_run_name tt fp ds seed t c tr ev od enc ckpt)
  = truthy tt || str_in "2T" enc || str_in "2T" ckpt || str_in "2T" ds.
Proof.
  rewrite get_run_name_join, str_in_join by done.
  unfold run_name_words. rewrite !existsb_app.
  cbn [existsb].
  rewrite !(str_in_str_of_int "2T" "T"), (str_in_seed "2T" "T") by done.
  destruct (truthy tt), fp, (str_in "2T" enc), (str_in "2T" ckpt),
    (str_in "2T" ds); reflexivity.
Qed.

(** Where the marker [1T] can come from. *)
Lemma str_in_1T tt fp ds seed t c tr ev od enc ckpt :
  str_in "1T" (get_run_name tt fp ds seed t c tr ev od enc ckpt)
  = negb (truthy tt) || str_in "1T" enc || str_in "1T" ckpt || str_in "1T" ds.
Proof.
  rewrite get_run_name_join, str_in_join by done.
  unfold run_name_words. rewrite !existsb_app.
  cbn [existsb].
  rewrite !(str_in_str_of_int "1T" "T"), (str_in_seed "1T" "T") by done.
  destruct (truthy tt), fp, (str_in "1T" enc), (str_in "1T" ckpt),
    (str_in "1T" ds); reflexivity.
Qed.

(** Where the letters [fp16] can come from. *)
Lemma str_in_fp16 tt fp ds seed t c tr ev od enc ckpt :
  str_in "fp16" (get_run_name tt fp ds seed t c tr ev od enc ckpt)
  = fp || str_in "fp16" enc || str_in "fp16" ckpt || str_in "fp16" ds.
Proof.
  rewrite get_run_name_join, str_in_join by done.
  unfold run_name_words. rewrite !existsb_app.
  cbn [existsb].
  rewrite !(str_in_str_of_int "fp16" "f"), (str_in_seed "fp16" "f") by done.
  destruct (truthy tt), fp, (str_in "fp16" enc), (str_in "fp16" ckpt),
    (str_in "fp16" ds); reflexivity.
Qed.

Lemma str_in_fp16_flag tt ds seed t c tr ev od enc ckpt :
  str_in " fp16" (get_run_name tt true ds seed t c tr ev od enc ckpt) = true.
Proof.
  unfold get_run_name.
  do 5 apply str_in_app_r. apply str_in_startswith, startswith_app.
Qed.

(** What a successful [run_experiment] has computed. *)
Lemma run_experiment_inr {C : Type} (K : dict C) tok config e :
  run_experiment K tok config = inr e ->
  exists ds tower_class,
    dataset_name config = Some ds /\
    dict_get K (encoder_type config) = inr tower_class /\
    model e =
      (if truthy (two_tower config)
       then TwoTowerICT tower_class (bert_model config) (output_encode_dim config)
       else OneTowerICT tower_class (bert_model config) (output_encode_dim config)) /\
    run_name (training_args e) =
      get_run_name (two_tower config) (fp16 config) ds (seed config)
        (target_max_seq_len config) (context_max_seq_len config)
        (train_batch_size config) (eval_batch_size config)
        (output_encode_dim config) (encoder_type config) (bert_model config) /\
    output_dir (training_args e) =
      "../../models/ICT/" +:+ replace_chr " " "_" (run_name (training_args e)).
Proof.
  unfold run_experiment. intros Hrun.
  destruct (dataset_name config) as [ds|]; [|done].
  destruct (dict_in (encoder_type config) K); [|done].
  destruct (train_dataset config); [|done].
  destruct (eval_dataset config); [|done].
  destruct (dict_get K (encoder_type config)) as [|tower_class]; [done|].
  exists ds, tower_class. injection Hrun as <-. done.
Qed.

(** C5. In [run_experiment] the model is a [TwoTowerICT] exactly when
    [config.two_tower] is nonzero and a [OneTowerICT] otherwise, built from
    the looked-up tower class, [config.bert_model] and
    [config.output_encode_dim]; two runs with the same [two_tower] build the
    same kind of model, whatever their other fields are. *)
Theorem tower_selection {C : Type} (K : dict C) tok config e :
  run_experiment K tok config = inr e ->
  (is_two_tower (model e) = true <-> two_tower config <> 0%Z) /\
  (is_two_tower (model e) = false <-> two_tower config = 0%Z) /\
  (exists tower_class,
     dict_get K (encoder_type config) = inr tower_class /\
     model e =
       if truthy (two_tower config)
       then TwoTowerICT tower_class (bert_model config) (output_encode_dim config)
       else OneTowerICT tower_class (bert_model config) (output_encode_dim config)) /\
  (forall (K' : dict C) tok' config' e',
     run_experiment K' tok' config' = inr e' ->
     two_tower config' = two_tower config ->
     is_two_tower (model e') = is_two_tower (model e)).
Proof.
  intros (ds & tower_class & _ & Hget & Hmodel & _)%run_experiment_inr.
  assert (is_two_tower (model e) = truthy (two_tower config)) as Hkind.
  { rewrite Hmodel. by destruct (truthy (two_tower config)). }
  split_and!.
  - rewrite Hkind. unfold truthy. rewrite negb_true_iff. apply Z.eqb_neq.
  - rewrite Hkind. unfold truthy. rewrite negb_false_iff. apply Z.eqb_eq.
  - by exists tower_class.
  - intros K' tok' config' e' (_ & tc' & _ & _ & Hmodel' & _)%run_experiment_inr Heq.
    rewrite Hkind, Hmodel', Heq. by destruct (truthy (two_tower config)).
Qed.

Lemma tower_selection_witness :
  exists e,
    run_experiment sample_classes sample_tokenizer sample_namespace = inr e /\
    (is_two_tower (model e) = true <-> two_tower sample_namespace <> 0%Z).
Proof.
  eexists. split; [reflexivity|].
  apply (tower_selection sample_classes sample_tokenizer sample_namespace).
  reflexivity.
Defined.

(** C7, as stated, fails: a string argument can carry a marker of its own.
    With [two_tower = 0] and [fp16 = False] the name still contains [2T] and
    [ fp16] when the dataset is called [HDFS 2T fp16], and with
    [two_tower = 1] it contains [1T] when the dataset is called [HDFS-1T]. *)
Lemma run_name_markers_counterexample :
  truthy 0 = false /\
  str_in "2T" (get_run_name 0 false "HDFS 2T fp16" 42 512 512 64 64 100
                 "DistilbertCls" "distilbert-base-cased") = true /\
  str_in " fp16" (get_run_name 0 false "HDFS 2T fp16" 42 512 512 64 64 100
                    "DistilbertCls" "distilbert-base-cased") = true /\
  truthy 1 = true /\
  str_in "1T" (get_run_name 1 false "HDFS-1T" 42 512 512 64 64 100
                 "DistilbertCls" "distilbert-base-cased") = true.
Proof. repeat split; reflexivity. Qed.

(** C7, amended. The run name is [get_run_name] of the eleven configuration
    values. It contains [2T] exactly when [two_tower] is true or one of the
    three string arguments contains [2T], and [1T] exactly when [two_tower]
    is false or one of them contains [1T]; it contains [ fp16] whenever
    [fp16] is true, and otherwise only if one of the string arguments
    contains [fp16]. The output directory is [../../models/ICT/] followed by
    the run name with every space replaced by an underscore; it contains no
    space, and neither does any of its components. *)
Theorem run_name_markers {C : Type} (K : dict C) tok config e :
  run_experiment K tok config = inr e ->
  let name := run_name (training_args e) in
  let dir := output_dir (training_args e) in
  let enc := encoder_type config in
  let ckpt := bert_model config in
  let ds := default "" (dataset_name config) in
  name = get_run_name (two_tower config) (fp16 config) ds (seed config)
           (target_max_seq_len config) (context_max_seq_len config)
           (train_batch_size config) (eval_batch_size config)
           (output_encode_dim config) enc ckpt /\
  str_in "2T" name
    = truthy (two_tower config)
      || str_in "2T" enc || str_in "2T" ckpt || str_in "2T" ds /\
  str_in "1T" name
    = negb (truthy (two_tower config))
      || str_in "1T" enc || str_in "1T" ckpt || str_in "1T" ds /\
  (fp16 config = true -> str_in " fp16" name = true) /\
  (str_in " fp16" name = true ->
   fp16 config || str_in "fp16" enc || str_in "fp16" ckpt || str_in "fp16" ds
   = true) /\
  dir = "../../models/ICT/" +:+ replace_chr " " "_" name /\
  chr_in " " dir = false /\
  Forall (fun w => chr_in " " w = false) (split_chr "/" dir).
Proof.
  intros (ds & tower_class & Hds & _ & _ & Hname & Hdir)%run_experiment_inr.
  cbn zeta. rewrite Hds. cbn [default from_option]. rewrite Hdir, Hname.
  assert (chr_in " " ("../../models/ICT/" +:+ replace_chr " " "_"
            (get_run_name (two_tower config) (fp16 config) ds (seed config)
               (target_max_seq_len config) (context_max_seq_len config)
               (train_batch_size config) (eval_batch_size config)
               (output_encode_dim config) (encoder_type config)
               (bert_model config))) = false) as Hspace.
  { rewrite chr_in_app, chr_in_replace_chr by done. done. }
  split_and!; try done.
  - apply str_in_2T.
  - apply str_in_1T.
  - intros ->. apply str_in_fp16_flag.
  - intros Hfp%str_in_tail. by rewrite str_in_fp16 in Hfp.
  - apply Forall_forall. intros w Hw.
    destruct (chr_in " " w) eqn:E; [|done].
    by rewrite (chr_in_split_chr _ _ _ _ Hw E) in Hspace.
Qed.

Lemma run_name_markers_witness :
  exists e,
    run_experiment sample_classes sample_tokenizer sample_namespace = inr e /\
    str_in "2T" (run_name (training_args e)) = true /\
    chr_in " " (output_dir (training_args e)) = false.
Proof.
  eexists. split; [reflexivity|].
  pose proof (run_name_markers sample_classes sample_tokenizer
                sample_namespace _ eq_refl) as (_ & H2T & _ & _ & _ & _ & Hdir & _).
  split; [exact H2T | exact Hdir].
Defined.

End TrainIctFacts.

(** ** Paths and output directories *)

Module PathFacts.
Import Py PyFacts Pathlib.

#[local] Arguments String.append !_ _ / : simpl nomatch.
#[local] Arguments Ascii.eqb : simpl never.

Example parse_normalises : parse "a//b/./c/" = mkPath "" ["a"; "b"; "c"].
Proof. reflexivity. Qed.

Example parse_absolute : parse "///x/y" = mkPath "/" ["x"; "y"].
Proof. reflexivity. Qed.

Example parse_two_slashes : parse "//x/y" = mkPath "//" ["x"; "y"].
Proof. reflexivity. Qed.

Example stem_log : stem (parse "/data/HDFS.log") = "HDFS".
Proof. reflexivity. Qed.

Example stem_two_suffixes : stem (parse "a/b.tar.gz") = "b.tar".
Proof. reflexivity. Qed.

Example stem_hidden : stem (parse ".bashrc") = ".bashrc".
Proof. reflexivity. Qed.

Example stem_dir : stem (parse "../models/encoders/run_1/") = "run_1".
Proof. reflexivity. Qed.

Example stem_root : stem (parse "/") = "".
Proof. reflexivity. Qed.

Example truediv_relative : str (truediv (parse "/out") "a/b") = "/out/a/b".
Proof. reflexivity. Qed.

Example truediv_absolute : str (truediv (parse "/out") "/tmp/x") = "/tmp/x".
Proof. reflexivity. Qed.

Lemma split_chr_without c s : chr_in c s = false -> split_chr c s = [s].
Proof.
  induction s as [|b s IH]; simpl; [done|].
  intros [Hb Hs]%orb_false_iff. rewrite Ascii.eqb_sym, Hb, IH; done.
Qed.

Lemma split_chr_app_sep c a b :
  chr_in c a = false -> split_chr c (a +:+ String c b) = a :: split_chr c b.
Proof.
  induction a as [|x a IH]; simpl.
  - intros _. by rewrite Ascii.eqb_refl.
  - intros [Hx Ha]%orb_false_iff. by rewrite Ascii.eqb_sym, Hx, IH.
Qed.

(** No piece of a split contains the separator. *)
Lemma split_chr_pieces c s : Forall (fun w => chr_in c w = false) (split_chr c s).
Proof.
  induction s as [|b s IH]; simpl.
  - by repeat constructor.
  - destruct (Ascii.eqb b c) eqn:E.
    + by constructor.
    + destruct (split_chr c s) as [|w ws].
      * repeat constructor. simpl. by rewrite Ascii.eqb_sym, E.
      * inversion_clear IH as [|?? Hw Hws]. constructor; [|done].
        simpl. by rewrite Ascii.eqb_sym, E, Hw.
Qed.

(** Every component of a parsed path is a kept name without a slash. *)
Lemma parse_names s :
  Forall (fun x => chr_in "/" x = false /\ kept x = true) (names (parse s)).
Proof.
  unfold parse. destruct (splitroot s) as [r rel]. simpl.
  apply Forall_forall. intros x [Hkept Hx]%list_elem_of_filter.
  split; [|done].
  by apply (proj1 (Forall_forall _ _) (split_chr_pieces "/" rel)).
Qed.

Lemma chr_in_str_take c i s : chr_in c s = false -> chr_in c (str_take i s) = false.
Proof.
  revert i. induction s as [|b s IH]; intros [|i]; simpl; try done.
  intros [Hb Hs]%orb_false_iff. by rewrite Hb, IH.
Qed.

Lemma last_Forall {A : Type} (P : A -> Prop) (l : list A) (d : A) :
  P d -> Forall P l -> P (List.last l d).
Proof.
  intros Hd. induction 1 as [|x l Hx Hl IH]; simpl; [done|].
  by destruct l.
Qed.

(** A name, and so a stem, contains no slash. *)
Lemma name_without_sep s : chr_in "/" (name (parse s)) = false.
Proof.
  unfold name.
  apply (last_Forall (fun x => chr_in "/" x = false)); [done|].
  eapply Forall_impl; [apply parse_names|]. by intros x [? _].
Qed.

Lemma stem_without_sep s : chr_in "/" (stem (parse s)) = false.
Proof.
  unfold stem. pose proof (name_without_sep s) as Hn.
  destruct (rfind_chr "." (name (parse s))) as [i|]; [|done].
  destruct (_ && _); [|done]. by apply chr_in_str_take.
Qed.

(** A string that does not start with a slash has no root. *)
Lemma splitroot_relative s : startswith "/" s = false -> splitroot s = ("", s).
Proof.
  unfold splitroot. destruct s as [|b s]; simpl; [done|].
  rewrite andb_true_r, Ascii.eqb_sym. by intros ->.
Qed.

Lemma parse_relative_root s : startswith "/" s = false -> root (parse s) = "".
Proof. intros Hs. unfold parse. by rewrite splitroot_relative. Qed.

Lemma kept_startswith x : kept x = true -> chr_in "/" x = false -> startswith "/" x = false.
Proof.
  destruct x as [|b x]; [done|]. simpl.
  intros _ [Hb _]%orb_false_iff. by rewrite Hb.
Qed.

(** Two names joined by a slash parse to the two names. *)
Lemma parse_two_names a b :
  kept a = true -> chr_in "/" a = false ->
  kept b = true -> chr_in "/" b = false ->
  parse (a +:+ String "/" b) = mkPath "" [a; b].
Proof.
  intros Ha Hsa Hb Hsb. unfold parse.
  rewrite splitroot_relative.
  - rewrite split_chr_app_sep, (split_chr_without _ b) by done.
    f_equal. rewrite filter_cons_True by done.
    by rewrite filter_cons_True by done.
  - destruct a as [|x a]; [done|]. simpl in *.
    apply orb_false_iff in Hsa as [Hx _]. by rewrite Hx.
Qed.

(** Joining a relative name appends its components. *)
Lemma truediv_relative_names p n :
  startswith "/" n = false ->
  truediv p n = mkPath (root p) (names p ++ names (parse n)).
Proof.
  intros Hn. unfold truediv. by rewrite parse_relative_root.
Qed.

(** Joining an anchored name forgets the left operand. *)
Lemma truediv_anchored p n : startswith "/" n = true -> truediv p n = parse n.
Proof.
  intros Hn. unfold truediv.
  assert (root (parse n) <> "") as Hroot.
  { unfold parse, splitroot. destruct n as [|b n]; [done|]. simpl in *.
    rewrite andb_true_r in Hn. apply Ascii.eqb_eq in Hn as <-. simpl.
    destruct (lstrip_sep n) as [[|[|k]] r]; simpl; done. }
  destruct (String.eqb (root (parse n)) "") eqn:E; [|done].
  by apply String.eqb_eq in E.
Qed.

End PathFacts.

(** ** The output directory of the two embedding scripts *)

Module OutputPathFacts.
Import Py PyFacts Pathlib PathFacts.

#[local] Arguments String.append !_ _ / : simpl nomatch.
#[local] Arguments Ascii.eqb : simpl never.

Example raw_default_path :
  str (EmbedDataset.output_path "data/embedded" "data/raw/HDFS1.log"
         "../../models/encoders/run_1" None)
  = "data/embedded/HDFS1/embedding_from_run_1".
Proof. reflexivity. Qed.

Example labeled_default_path :
  str (EmbedLabeled.output_path "/data/embedded/" "/data/raw/HDFS1.log"
         "/models/encoders/run_1.ckpt" None)
  = "/data/embedded/HDFS1/labeled_embedding_from_run_1".
Proof. reflexivity. Qed.

Example raw_named_path :
  str (EmbedDataset.output_path "data/embedded" "data/raw/HDFS1.log"
         "../../models/encoders/run_1" (Some "hdfs/v2"))
  = "data/embedded/hdfs/v2".
Proof. reflexivity. Qed.

(** The default dataset name parses to its two components. *)
Lemma parse_default_name (prefix input model : string) :
  kept (stem (parse input)) = true ->
  chr_in "/" prefix = false -> kept (prefix +:+ stem (parse model)) = true ->
  parse (stem (parse input) +:+ String "/" (prefix +:+ stem (parse model)))
  = mkPath "" [stem (parse input); prefix +:+ stem (parse model)].
Proof.
  intros Hst Hprefix Hkept. apply parse_two_names; try done.
  - apply stem_without_sep.
  - by rewrite chr_in_app, Hprefix, stem_without_sep.
Qed.

(** C6, as stated, fails for a [--dataset-output-name] that starts with a
    slash: the output path is that name alone, outside the parent folder. It
    also fails for the derived name when the input path has no file name
    (its stem is empty, so the derived name starts with a slash). *)
Lemma output_path_counterexample :
  EmbedDataset.output_path "/data/out" "/data/HDFS1.log" "/models/run_1"
    (Some "/tmp/x") = mkPath "/" ["tmp"; "x"] /\
  EmbedLabeled.output_path "/data/out" "/data/HDFS1.log" "/models/run_1"
    (Some "/tmp/x") = mkPath "/" ["tmp"; "x"] /\
  ~ is_under (parse "/data/out")
      (EmbedDataset.output_path "/data/out" "/data/HDFS1.log" "/models/run_1"
         (Some "/tmp/x")) /\
  EmbedDataset.output_path "data/out" "/" "/models/run_1" None
  = mkPath "/" ["embedding_from_run_1"].
Proof.
  split_and!; try reflexivity.
  intros [_ Hprefix]. vm_compute in Hprefix.
  destruct Hprefix as [k Hk]. discriminate Hk.
Qed.

(** C6, amended. When [--dataset-output-name] is omitted and the input file
    has a stem (not empty and not a single dot), the output path of the raw
    script is the parent folder followed by the two components
    [<input stem>] and [embedding_from_<model stem>], and that of the labeled
    script by [<input stem>] and [labeled_embedding_from_<model stem>]. When
    the name is given and does not start with a slash, the output path is the
    parent folder followed by the components of that name. *)
Theorem output_path_naming (parent input model : string) :
  let st := stem (parse input) in
  let ms := stem (parse model) in
  (kept st = true ->
   EmbedDataset.output_path parent input model None
   = mkPath (root (parse parent))
       (names (parse parent) ++ [st; "embedding_from_" +:+ ms]) /\
   EmbedLabeled.output_path parent input model None
   = mkPath (root (parse parent))
       (names (parse parent) ++ [st; "labeled_embedding_from_" +:+ ms])) /\
  (forall n, startswith "/" n = false ->
   EmbedDataset.output_path parent input model (Some n)
   = mkPath (root (parse parent)) (names (parse parent) ++ names (parse n)) /\
   EmbedLabeled.output_path parent input model (Some n)
   = mkPath (root (parse parent)) (names (parse parent) ++ names (parse n)) /\
   is_under (parse parent) (EmbedDataset.output_path parent input model (Some n)) /\
   is_under (parse parent) (EmbedLabeled.output_path parent input model (Some n))).
Proof.
  cbn zeta. split.
  - intros Hst.
    unfold EmbedDataset.output_path, EmbedLabeled.output_path,
      EmbedDataset.dataset_name, EmbedLabeled.dataset_name.
    pose proof (parse_default_name "embedding_from_" input model Hst
                  eq_refl eq_refl) as Hraw.
    pose proof (parse_default_name "labeled_embedding_from_" input model Hst
                  eq_refl eq_refl) as Hlab.
    unfold truediv. simpl in Hraw, Hlab |- *. by rewrite Hraw, Hlab.
  - intros n Hn.
    unfold EmbedDataset.output_path, EmbedLabeled.output_path,
      EmbedDataset.dataset_name, EmbedLabeled.dataset_name.
    rewrite truediv_relative_names by done.
    split_and!; try done; (split; [done|by apply prefix_app_r]).
Qed.

Lemma output_path_naming_witness :
  EmbedDataset.output_path "data/out" "logs/HDFS1.log" "models/run_1" None
  = mkPath "" ["data"; "out"; "HDFS1"; "embedding_from_run_1"] /\
  EmbedLabeled.output_path "data/out" "logs/HDFS1.log" "models/run_1"
    (Some "hdfs/v2")
  = mkPath "" ["data"; "out"; "hdfs"; "v2"].
Proof.
  pose proof (output_path_naming "data/out" "logs/HDFS1.log" "models/run_1")
    as [Hdefault Hnamed].
  split.
  - exact (proj1 (Hdefault eq_refl)).
  - exact (proj1 (proj2 (Hnamed "hdfs/v2" eq_refl))).
Defined.

End OutputPathFacts.

(** ** The encoder head *)

Module EncoderFacts.
Import Py PyFacts Torch Encoders Demo.

Section Head.
Context {R : Type} `{Backend R}.

Lemma select_first_lookup (t : list (list (list R))) cls :
  select_first t = inr cls <-> Forall2 (fun row c => row !! 0 = Some c) t cls.
Proof.
  unfold select_first. rewrite traverse_inr.
  split; intros Hall; (eapply Forall2_impl; [exact Hall|]);
    intros [|c row] c'; simpl; naive_solver.
Qed.

Lemma Linear_new_shape (in_f out_f : nat) w b :
  length (weight (Linear_new in_f out_f w b)) = out_f /\
  length (bias (Linear_new in_f out_f w b)) = out_f /\
  Forall (fun row => length row = in_f) (weight (Linear_new (R := R) in_f out_f w b)).
Proof.
  unfold Linear_new. simpl.
  rewrite !List.length_map, !List.length_seq. split_and!; try done.
  apply Forall_forall. intros row [i [<- _]]%list_elem_of_In%List.in_map_iff.
  by rewrite List.length_map, List.length_seq.
Qed.

Lemma Linear_forward_row_length (l : Linear R) x y :
  Linear_forward_row l x = inr y ->
  length x = in_features l /\
  length y = min (length (weight l)) (length (bias l)).
Proof.
  unfold Linear_forward_row.
  destruct (Nat.eqb (length x) (in_features l)) eqn:E; [|done].
  intros [= <-]. apply Nat.eqb_eq in E. by rewrite length_zip_with.
Qed.

Lemma cls_head_inr (proj : Linear R) h out :
  cls_head proj h = inr out <->
  exists cls,
    Forall2 (fun row c => row !! 0 = Some c) h cls /\
    Forall2 (fun c e => Linear_forward_row proj c = inr e) cls (embedding out).
Proof.
  unfold cls_head. split.
  - destruct (select_first h) as [e|cls] eqn:Ecls; [done|]. simpl.
    unfold Linear_forward.
    destruct (traverse (Linear_forward_row proj) cls) as [e|enc] eqn:Eenc;
      [done|]. simpl.
    intros [= <-]. exists cls. split.
    + by apply select_first_lookup.
    + by apply traverse_inr.
  - intros (cls & Hcls%select_first_lookup & Henc%traverse_inr).
    rewrite Hcls. simpl. unfold Linear_forward. rewrite Henc. simpl.
    by destruct out.
Qed.

Lemma forward_result (self : DistilBertForClsEmbedding R) g ids mask :
  (forward self g ids mask).1.1
  = cls_head (cls_projector self)
      (DistilBertModel_forward (distilbert self) (training self) g ids mask).1.1.
Proof.
  unfold forward.
  by destruct (DistilBertModel_forward _ _ _ _ _) as [[h body] g'].
Qed.


Lemma outputs_of_new_projector (self : DistilBertForClsEmbedding R)
    in_f out_f w b :
  cls_projector self = Linear_new in_f out_f w b ->
  outputs_have_dimension self out_f.
Proof.
  intros Hproj g ids mask out. rewrite forward_result, Hproj.
  intros (cls & _ & Henc)%cls_head_inr.
  destruct (Linear_new_shape in_f out_f w b) as (Hw & Hb & _).
  eapply Forall2_Forall_r; [done|].
  apply Forall_forall. intros c _ e [_ He]%Linear_forward_row_length.
  rewrite He, Hw, Hb. apply Nat.min_id.
Qed.

Lemma cls_embedding_dimension_value cfg :
  (cls_embedding_dimension cfg).1 = configured_dimension cfg /\
  (cls_embedding_dimension cfg).2 !! "cls_embedding_dimension"
  = Some (configured_dimension cfg).
Proof.
  unfold cls_embedding_dimension, configured_dimension, setdefault.
  destruct (task_specific_params cfg) as [params|].
  - destruct (params !! "cls_embedding_dimension") as [d|] eqn:E; simpl.
    + done.
    + by rewrite lookup_insert_eq.
  - rewrite lookup_empty. simpl. by rewrite lookup_insert_eq.
Qed.

Lemma init_projector cfg v :
  cls_projector (__init__ cfg v)
  = Linear_new (dim cfg) (configured_dimension cfg)
      (weight_values v) (bias_values v) /\
  (exists params,
     task_specific_params (config (__init__ cfg v)) = Some params /\
     params !! "cls_embedding_dimension" = Some (configured_dimension cfg)).
Proof.
  unfold __init__.
  destruct (cls_embedding_dimension_value cfg) as [Hd Hp].
  destruct (cls_embedding_dimension cfg) as [d params]. simpl in *.
  subst d. split; [done|]. by exists params.
Qed.

(** C3. A model built by the constructor, or loaded by [from_pretrained],
    returns embeddings whose length is the configured
    [cls_embedding_dimension] (512 when the configuration has no
    [task_specific_params] or no such key), whatever the input is; the
    configuration kept by the model records that dimension; and the call
    succeeds, with one embedding per batch element, whenever every batch
    element of the hidden state has a position 0 of length [config.dim]. *)
Theorem embedding_dimension_fixed (cfg : PretrainedConfig) (v : state_values R) :
  let d := configured_dimension cfg in
  (task_specific_params cfg = None -> d = 512) /\
  (forall params, task_specific_params cfg = Some params ->
     d = default 512 (params !! "cls_embedding_dimension")) /\
  outputs_have_dimension (__init__ cfg v) d /\
  outputs_have_dimension (from_pretrained (mkCheckpoint cfg v)) d /\
  (exists params,
     task_specific_params (config (from_pretrained (mkCheckpoint cfg v)))
     = Some params /\
     params !! "cls_embedding_dimension" = Some d) /\
  (forall g ids mask,
     let self := from_pretrained (mkCheckpoint cfg v) in
     let h := (DistilBertModel_forward (distilbert self) (training self)
                 g ids mask).1.1 in
     Forall (fun row => exists c, row !! 0 = Some c /\ length c = dim cfg) h ->
     exists out,
       (forward self g ids mask).1.1 = inr out /\
       length (embedding out) = length h /\
       Forall (fun e => length e = d) (embedding out)).
Proof.
  cbn zeta. destruct (init_projector cfg v) as [Hproj Hcfg].
  assert (outputs_have_dimension (from_pretrained (mkCheckpoint cfg v))
            (configured_dimension cfg)) as Hdim.
  { eapply outputs_of_new_projector. unfold from_pretrained. simpl. exact Hproj. }
  split_and!.
  - unfold configured_dimension. by intros ->.
  - unfold configured_dimension. by intros params ->.
  - by eapply outputs_of_new_projector.
  - done.
  - done.
  - intros g ids mask Hh.
    assert (exists cls,
              select_first
                (DistilBertModel_forward
                   (distilbert (from_pretrained (mkCheckpoint cfg v)))
                   (training (from_pretrained (mkCheckpoint cfg v)))
                   g ids mask).1.1 = inr cls /\
              Forall (fun c => length c = dim cfg) cls) as (cls & Hcls & Hlen).
    { revert Hh. generalize ((DistilBertModel_forward
                   (distilbert (from_pretrained (mkCheckpoint cfg v)))
                   (training (from_pretrained (mkCheckpoint cfg v)))
                   g ids mask).1.1).
      intros h. induction 1 as [|row h (c & Hc & Hlen) _ (cls & Hcls & Hall)].
      - by exists [].
      - exists (c :: cls). split; [|by constructor].
        unfold select_first in *. simpl. rewrite Hcls.
        by destruct row as [|c0 row]; simplify_eq/=. }
    destruct (traverse_total
                (Linear_forward_row
                   (cls_projector (from_pretrained (mkCheckpoint cfg v)))) cls)
      as [enc Henc].
    { eapply Forall_impl; [done|]. intros c Hc.
      unfold Linear_forward_row, from_pretrained. simpl.
      rewrite Hproj. simpl. rewrite Hc, Nat.eqb_refl. eauto. }
    assert ((forward (from_pretrained (mkCheckpoint cfg v)) g ids mask).1.1
            = inr {| embedding := enc |}) as Hout.
    { rewrite forward_result. apply cls_head_inr. exists cls.
      split; [by apply select_first_lookup|by apply traverse_inr]. }
    exists {| embedding := enc |}. split_and!; [done| |].
    + cbn [embedding]. rewrite (traverse_length _ _ _ Henc).
      exact (traverse_length _ _ _ Hcls).
    + by eapply Hdim.
Qed.

End Head.

Example demo_forward_eval :
  (forward demo_model 5 [[101; 2; 102]; [101; 4; 102]]%Z [[1; 1; 1]; [1; 1; 1]]%Z).1.1
  = inr {| embedding := [[202; 507; 812]; [202; 507; 812]]%Z |}.
Proof. reflexivity. Qed.

Example demo_forward_empty_sequence :
  (forward demo_model 5 [[]] [[]]).1.1 = inl IndexError.
Proof. reflexivity. Qed.


Lemma embedding_dimension_fixed_witness :
  outputs_have_dimension demo_model 3 /\
  outputs_have_dimension
    (from_pretrained
       (mkCheckpoint (mkConfig 2 None None) demo_values)) 512.
Proof.
  split.
  - exact (proj1 (proj2 (proj2 (proj2
             (embedding_dimension_fixed demo_config demo_values))))).
  - exact (proj1 (proj2 (proj2 (proj2
             (embedding_dimension_fixed (mkConfig 2 None None) demo_values))))).
Defined.

End EncoderFacts.

(** ** Runs of the scripts *)

Module ScriptFacts.
Import Py PyFacts Pathlib Torch Encoders Script.

Section Runs.
Context {R : Type} `{Backend R}.


Lemma bind_run {A B : Type} (m : M R A) (f : A -> M R B) w :
  (m ≫= f) w
  = match m w with
    | (inl e, w') => (inl e, w')
    | (inr x, w') => f x w'
    end.
Proof. reflexivity. Qed.






Lemma appends_ret {A : Type} (x : A) : appends (mret x).
Proof. intros w. exists []. simpl. by rewrite app_nil_r. Qed.

Lemma appends_lift {A : Type} (r : result A) : appends (lift r).
Proof. intros w. exists []. simpl. by rewrite app_nil_r. Qed.

Lemma appends_emit (e : event R) : appends (emit e).
Proof. intros w. by exists [e]. Qed.

Lemma appends_bind {A B : Type} (m : M R A) (f : A -> M R B) :
  appends m -> (forall x, appends (f x)) -> appends (m ≫= f).
Proof.
  intros Hm Hf w. rewrite bind_run.
  destruct (Hm w) as [r1 H1]. destruct (m w) as [[e|x] w1]; simpl in *.
  - by exists r1.
  - destruct (Hf x w1) as [r2 H2]. exists (r1 ++ r2).
    by rewrite H2, H1, <- app_assoc.
Qed.

(** The output path passes the check exactly when nothing is there or an
    empty directory is. *)
Lemma output_path_usable_spec (fs : filesystem) (p : Path) :
  output_path_usable fs p = true <-> fs p = None \/ fs p = Some (Directory []).
Proof.
  unfold output_path_usable, exists_, is_dir, iterdir.
  destruct (fs p) as [[|[|x entries]]|]; simpl; intuition congruence.
Qed.

Lemma output_path_unusable_spec (fs : filesystem) (p : Path) :
  output_path_usable fs p = false <->
  exists n, fs p = Some n /\ n <> Directory [].
Proof.
  unfold output_path_usable, exists_, is_dir, iterdir.
  destruct (fs p) as [[|[|x entries]]|]; simpl;
    (split; [intros Hu; try done; by eexists|intros (n & [= <-] & Hn); done]).
Qed.


End Runs.

End ScriptFacts.

(** ** [embed_dataset_using_pretrained_model.py] *)

Module EmbedDatasetFacts.
Import Py PyFacts Pathlib Torch Encoders Script ScriptFacts EmbedDataset.

Section Raw.
Context {R : Type} `{Backend R} `{!Library R}.

Lemma raw_embed_dataset_given config model input parent :
  model_path config = Some model ->
  input_dataset_log_file config = Some input ->
  output_parent_folder config = Some parent ->
  let out := output_path parent input model (dataset_output_name config) in
  embed_dataset config
  = (_ ← lift (assert (output_path_usable fs out)
                 ("Output path " +:+ str out
                  +:+ " is not empty, can't create dataset"));
     embed_steps config model input out).
Proof.
  intros Hm Hi Hp. unfold embed_dataset. by rewrite Hm, Hi, Hp.
Qed.

Lemma appends_encode_dataset texts tok encoder :
  appends (encode_dataset texts tok encoder).
Proof.
  intros w. unfold encode_dataset.
  destruct (forward _ _ _ _) as [[[e|o] enc'] g']; simpl.
  - exists []. by rewrite app_nil_r.
  - by eexists.
Qed.

Lemma appends_map_batched tok bs encoder :
  appends (map_batched tok bs encoder).
Proof.
  revert encoder. induction bs as [|b bs IH]; intros encoder; simpl.
  - apply appends_ret.
  - apply appends_bind; [apply appends_encode_dataset|].
    intros [emb encoder1]. apply appends_bind; [apply appends_lift|].
    intros _. apply appends_bind; [apply IH|].
    intros [rows encoder2]. apply appends_ret.
Qed.

Lemma raw_appends_embed_steps_tail config model input out :
  exists k : M R (DistilBertForClsEmbedding R),
    appends k /\
    embed_steps config model input out
    = (_ ← emit (LoadDataset (parse input)); k).
Proof.
  eexists. split; [|reflexivity].
  apply appends_bind; [apply appends_emit|]. intros _.
  apply appends_bind; [apply appends_emit|]. intros _.
  apply appends_bind; [apply appends_map_batched|].
  intros [rows encoder]. apply appends_bind; [apply appends_emit|].
  intros _. apply appends_ret.
Qed.

(** The assertion on the output path, in the raw script. *)
Lemma raw_guard config model input parent w :
  model_path config = Some model ->
  input_dataset_log_file config = Some input ->
  output_parent_folder config = Some parent ->
  let out := output_path parent input model (dataset_output_name config) in
  (output_path_usable fs out = false ->
   exists msg, embed_dataset config w = (inl (AssertionError msg), w)) /\
  (output_path_usable fs out = true ->
   exists rest,
     trace (embed_dataset config w).2
     = trace w ++ LoadDataset (parse input) :: rest).
Proof.
  intros Hm Hi Hp out. rewrite (raw_embed_dataset_given _ _ _ _ Hm Hi Hp).
  fold out. split; intros Hu; rewrite bind_run; unfold lift; rewrite Hu; simpl.
  - by eexists.
  - destruct (raw_appends_embed_steps_tail config model input out)
      as (k & Hk & ->).
    rewrite bind_run. simpl.
    destruct (Hk {| trace := trace w ++ [LoadDataset (parse input)];
                    gen := gen w |}) as [rest Hrest].
    exists rest. rewrite Hrest. simpl. by rewrite <- app_assoc.
Qed.

(** Without a required argument the raw script stops at once. *)
Lemma raw_missing_argument config w :
  model_path config = None \/ input_dataset_log_file config = None
  \/ output_parent_folder config = None ->
  exists msg, embed_dataset config w = (inl (AssertionError msg), w).
Proof.
  unfold embed_dataset.
  destruct (model_path config), (input_dataset_log_file config),
    (output_parent_folder config); intros [?|[?|?]]; try done;
    by eexists.
Qed.




End Raw.

End EmbedDatasetFacts.

(** ** [embed_labeled_dataset_for_anomaly_detection.py] *)

Module EmbedLabeledFacts.
Import Py PyFacts Pathlib Torch Encoders Script ScriptFacts EmbedLabeled.

Section Labeled.
Context {R : Type} `{Backend R}.

Lemma encode_batch_inr (c : encoder_class R) batch tok (encoder : instance c)
    w arr encoder' w' :
  encode_batch batch tok encoder w = (inr (arr, encoder'), w') ->
  trace w' = trace w ++ [Forward batch arr] /\ returned_by c tok batch arr.
Proof.
  unfold encode_batch.
  destruct (cls_call c encoder (gen w) (tok batch)) as [[[e|o] enc1] g1] eqn:E;
    [done|].
  intros [= <- <- <-]. split; [done|].
  by exists encoder, enc1, (gen w), g1, o.
Qed.



(** A completed loop has made one call per item, on all the lines of the
    item, and stored what the call returned under the key of the item. *)
Lemma embed_blocks_inr (c : encoder_class R) tok items (encoder : instance c)
    acc w d encoder' w' :
  NoDup items.*1 ->
  embed_blocks tok items encoder acc w = (inr (d, encoder'), w') ->
  exists calls,
    trace w' = trace w ++ calls /\
    Forall2 (fun item ev =>
               exists arr, ev = Forward item.2 arr /\
                           d !! item.1 = Some arr /\
                           returned_by c tok item.2 arr) items calls /\
    (forall b, b ∉ items.*1 -> d !! b = acc !! b).
Proof.
  revert encoder acc w. induction items as [|[b lines] items IH];
    intros encoder acc w Hnodup; simpl.
  - intros [= <- <- <-]. exists []. rewrite app_nil_r.
    split_and!; [done|constructor|done].
  - rewrite bind_run.
    destruct (encode_batch lines tok encoder w) as [[e1|[arr enc1]] w1] eqn:E1;
      [done|].
    apply NoDup_cons in Hnodup as [Hb Hnodup].
    intros Hrest. destruct (IH _ _ _ Hnodup Hrest) as (calls & Htrace & Hcalls & Hacc).
    destruct (encode_batch_inr _ _ _ _ _ _ _ _ E1) as [Hw1 Hret].
    exists (Forward lines arr :: calls). split_and!.
    + by rewrite Htrace, Hw1, <- app_assoc.
    + constructor; [|done]. exists arr. simpl. split_and!; [done| |done].
      by rewrite (Hacc b Hb), lookup_insert_eq.
    + intros b' Hb'. simpl in Hb'. apply not_elem_of_cons in Hb' as [Hne Hb'].
      by rewrite (Hacc b' Hb'), lookup_insert_ne.
Qed.

(** The dictionary built from the items of a map has the keys of the map. *)
Lemma embed_blocks_dom (c : encoder_class R) tok
    (dataset : gmap string (list string)) (encoder : instance c)
    w d encoder' w' :
  embed_blocks tok (map_to_list dataset) encoder ∅ w = (inr (d, encoder'), w') ->
  dom d = dom dataset /\
  exists calls,
    trace w' = trace w ++ calls /\
    length calls = size dataset /\
    Forall (fun ev => is_forward ev = true) calls /\
    Forall2 (fun item ev =>
               exists arr, ev = Forward item.2 arr /\
                           d !! item.1 = Some arr /\
                           returned_by c tok item.2 arr)
      (map_to_list dataset) calls.
Proof.
  intros Hrun.
  destruct (embed_blocks_inr _ _ _ _ _ _ _ _ _
              (NoDup_fst_map_to_list dataset) Hrun)
    as (calls & Htrace & Hcalls & Hacc).
  split.
  - apply set_eq. intros b. rewrite !elem_of_dom.
    destruct (dataset !! b) as [lines|] eqn:Eb.
    + apply elem_of_map_to_list in Eb.
      apply list_elem_of_lookup in Eb as [i Hi].
      destruct (Forall2_lookup_l _ _ _ _ _ Hcalls Hi)
        as (ev & _ & arr & _ & Hd & _).
      simpl in Hd. rewrite Hd. by split; eauto.
    + rewrite Hacc, lookup_empty; [done|].
      intros ([b' lines] & -> & Hin%elem_of_map_to_list)%list_elem_of_fmap.
      simpl in Eb. congruence.
  - exists calls. split_and!; [done| | |done].
    + rewrite <- (Forall2_length _ _ _ Hcalls). apply length_map_to_list.
    + eapply Forall2_Forall_r; [done|].
      apply Forall_forall. by intros item _ ev (arr & -> & _).
Qed.

Lemma appends_encode_batch (c : encoder_class R) batch tok (encoder : instance c) :
  appends (encode_batch batch tok encoder).
Proof.
  intros w. unfold encode_batch.
  destruct (cls_call c encoder (gen w) (tok batch)) as [[[e|o] enc1] g1]; simpl.
  - exists []. by rewrite app_nil_r.
  - by eexists.
Qed.

Lemma appends_embed_blocks (c : encoder_class R) tok items
    (encoder : instance c) acc :
  appends (embed_blocks tok items encoder acc).
Proof.
  revert encoder acc. induction items as [|[b lines] items IH];
    intros encoder acc; simpl.
  - apply appends_ret.
  - apply appends_bind; [apply appends_encode_batch|].
    intros [arr encoder1]. apply IH.
Qed.





Context `{!Library R}.

Lemma labeled_embed_dataset_given config model input labels parent :
  model_path config = Some model ->
  input_dataset_log_file config = Some input ->
  input_dataset_labels_csv config = Some labels ->
  output_parent_folder config = Some parent ->
  let out := output_path parent input model (dataset_output_name config) in
  embed_dataset config
  = (_ ← lift (assert (output_path_usable fs out)
                 ("Output path " +:+ str out
                  +:+ " is not empty, can't create dataset"));
     embed_steps config model input labels out).
Proof.
  intros Hm Hi Hl Hp. unfold embed_dataset. by rewrite Hm, Hi, Hl, Hp.
Qed.

(** Without a required argument the labeled script stops at once. *)
Lemma labeled_missing_argument config w :
  model_path config = None \/ input_dataset_log_file config = None
  \/ input_dataset_labels_csv config = None
  \/ output_parent_folder config = None ->
  exists msg, embed_dataset config w = (inl (AssertionError msg), w).
Proof.
  unfold embed_dataset.
  destruct (model_path config), (input_dataset_log_file config),
    (input_dataset_labels_csv config), (output_parent_folder config);
    intros [?|[?|[?|?]]]; try done; by eexists.
Qed.

Lemma appends_save_steps out labels_df embedded :
  appends (save_steps out labels_df embedded).
Proof.
  apply appends_bind; [apply appends_lift|]. intros X.
  apply appends_bind; [apply appends_emit|]. intros _.
  apply appends_bind; [apply appends_emit|]. intros _.
  apply appends_bind; [apply appends_emit|]. intros _. apply appends_ret.
Qed.

Lemma labeled_appends_embed_steps_tail config model input labels out :
  exists k : M R unit,
    appends k /\
    embed_steps config model input labels out
    = (_ ← emit (LoadDataset (parse input)); k).
Proof.
  eexists. split; [|reflexivity].
  apply appends_bind; [apply appends_emit|]. intros _.
  apply appends_bind; [apply appends_emit|]. intros _.
  apply appends_bind; [apply appends_emit|]. intros _.
  apply appends_bind; [apply appends_lift|]. intros arch.
  apply appends_bind; [apply appends_lift|]. intros c.
  apply appends_bind; [apply appends_emit|]. intros _.
  apply appends_bind; [apply appends_embed_blocks|].
  intros [embedded encoder]. apply appends_save_steps.
Qed.

(** The assertion on the output path, in the labeled script. *)
Lemma labeled_guard config model input parent w :
  model_path config = Some model ->
  input_dataset_log_file config = Some input ->
  output_parent_folder config = Some parent ->
  let out := output_path parent input model (dataset_output_name config) in
  (output_path_usable fs out = false ->
   exists msg, embed_dataset config w = (inl (AssertionError msg), w)) /\
  (output_path_usable fs out = true ->
   forall labels, input_dataset_labels_csv config = Some labels ->
   exists rest,
     trace (embed_dataset config w).2
     = trace w ++ LoadDataset (parse input) :: rest).
Proof.
  intros Hm Hi Hp out.
  destruct (input_dataset_labels_csv config) as [labels|] eqn:Hl; cycle 1.
  { split; [|done]. intros _.
    apply labeled_missing_argument. by right; right; left. }
  rewrite (labeled_embed_dataset_given _ _ _ _ _ Hm Hi Hl Hp).
  fold out. split.
  - intros Hu. rewrite bind_run. unfold lift. rewrite Hu. by eexists.
  - intros Hu ? [= <-]. rewrite bind_run. unfold lift. rewrite Hu. simpl.
    destruct (labeled_appends_embed_steps_tail config model input labels out)
      as (k & Hk & ->).
    rewrite bind_run. simpl.
    destruct (Hk {| trace := trace w ++ [LoadDataset (parse input)];
                    gen := gen w |}) as [rest Hrest].
    exists rest. rewrite Hrest. simpl. by rewrite <- app_assoc.
Qed.

(** The steps up to the choice of the encoder class. *)
Lemma embed_steps_run config model input labels out w :
  embed_steps config model input labels out w
  = let w4 := {| trace := trace w ++ loads config model input labels;
                 gen := gen w |} in
    match first_architecture (AutoConfig_from_pretrained model) with
    | inl e => (inl e, w4)
    | inr arch =>
        match dict_get (dict_by __name__ (dict_values KNOWN_ENCODER_CLASSES))
                arch with
        | inl e => (inl e, w4)
        | inr c =>
            encode_steps model out (load_hdfs1_log_file_grouped (parse input))
              (labels_of (read_csv (parse labels)))
              (AutoTokenizer_from_pretrained (base_model_name config)) c w4
        end
    end.
Proof.
  unfold embed_steps, loads.
  do 4 (rewrite bind_run; simpl).
  rewrite <- !app_assoc. simpl.
  rewrite bind_run. unfold lift at 1.
  destruct (first_architecture _) as [e|arch]; [done|].
  rewrite bind_run. unfold lift.
  by destruct (dict_get _ arch).
Qed.

Lemma save_steps_run out labels_df embedded w :
  save_steps out labels_df embedded w
  = match traverse (block_embedding embedded) (map fst labels_df) with
    | inl e => (inl e, w)
    | inr X =>
        (inr tt,
         {| trace := trace w
                     ++ [Mkdir out; PickleDump (child out "X.pickle") X;
                         NpSave (child out "y.npy")
                           (map (fun r => to_int8 (snd r)) labels_df)];
            gen := gen w |})
    end.
Proof.
  unfold save_steps. rewrite bind_run. unfold lift.
  destruct (traverse _ _) as [e|X]; [done|].
  do 3 (rewrite bind_run; simpl). by rewrite <- !app_assoc.
Qed.

Lemma encode_steps_run model out dataset labels_df tok c w :
  encode_steps model out dataset labels_df tok c w
  = match embed_blocks tok (map_to_list dataset)
            (cls_eval c (cls_from_pretrained c model)) ∅
            {| trace := trace w ++ [LoadModel (__name__ c) model];
               gen := gen w |} with
    | (inl e, w6) => (inl e, w6)
    | (inr (embedded, _), w6) => save_steps out labels_df embedded w6
    end.
Proof.
  unfold encode_steps. rewrite bind_run. simpl. rewrite bind_run.
  by destruct (embed_blocks _ _ _ _ _) as [[e|[embedded enc]] w6].
Qed.

(** What a completed run of the labeled script has done. *)
Lemma embed_dataset_inr config w w' :
  embed_dataset config w = (inr tt, w') ->
  exists model input labels parent arch c embedded encoder' w6 X,
    model_path config = Some model /\
    input_dataset_log_file config = Some input /\
    input_dataset_labels_csv config = Some labels /\
    output_parent_folder config = Some parent /\
    first_architecture (AutoConfig_from_pretrained model) = inr arch /\
    dict_get (dict_by __name__ (dict_values KNOWN_ENCODER_CLASSES)) arch
    = inr c /\
    embed_blocks (AutoTokenizer_from_pretrained (base_model_name config))
      (map_to_list (load_hdfs1_log_file_grouped (parse input)))
      (cls_eval c (cls_from_pretrained c model)) ∅
      {| trace := trace w ++ loads config model input labels
                  ++ [LoadModel (__name__ c) model];
         gen := gen w |}
    = (inr (embedded, encoder'), w6) /\
    traverse (block_embedding embedded)
      (map fst (labels_of (read_csv (parse labels)))) = inr X /\
    trace w'
    = trace w6
      ++ [Mkdir (output_path parent input model (dataset_output_name config));
          PickleDump
            (child (output_path parent input model (dataset_output_name config))
               "X.pickle") X;
          NpSave
            (child (output_path parent input model (dataset_output_name config))
               "y.npy")
            (map (fun r => to_int8 (snd r))
               (labels_of (read_csv (parse labels))))].
Proof.
  intros Hrun.
  destruct (model_path config) as [model|] eqn:Hm; cycle 1.
  { destruct (labeled_missing_argument config w) as [msg Hmsg]; [by left|].
    congruence. }
  destruct (input_dataset_log_file config) as [input|] eqn:Hi; cycle 1.
  { destruct (labeled_missing_argument config w) as [msg Hmsg];
      [by right; left|]. congruence. }
  destruct (input_dataset_labels_csv config) as [labels|] eqn:Hl; cycle 1.
  { destruct (labeled_missing_argument config w) as [msg Hmsg];
      [by right; right; left|]. congruence. }
  destruct (output_parent_folder config) as [parent|] eqn:Hp; cycle 1.
  { destruct (labeled_missing_argument config w) as [msg Hmsg];
      [by right; right; right|]. congruence. }
  rewrite (labeled_embed_dataset_given _ _ _ _ _ Hm Hi Hl Hp) in Hrun.
  rewrite bind_run in Hrun. unfold lift, assert in Hrun.
  destruct (output_path_usable _ _); [|done].
  rewrite embed_steps_run in Hrun. cbn zeta in Hrun.
  destruct (first_architecture _) as [e|arch] eqn:Harch; [done|].
  destruct (dict_get _ arch) as [e|c] eqn:Hc; [done|].
  rewrite encode_steps_run in Hrun. simpl in Hrun.
  rewrite <- app_assoc in Hrun.
  destruct (embed_blocks _ _ _ _ _) as [[e|[embedded encoder']] w6] eqn:Hblocks;
    [done|].
  rewrite save_steps_run in Hrun.
  destruct (traverse _ _) as [e|X] eqn:HX; [done|].
  injection Hrun as <-.
  by exists model, input, labels, parent, arch, c, embedded, encoder', w6, X.
Qed.

(** A class whose calls never raise. *)
Lemma embed_blocks_total (c : encoder_class R) tok items (encoder : instance c)
    acc w :
  (forall (self : instance c) g enc,
     exists out self' g', cls_call c self g enc = (inr out, self', g')) ->
  exists d encoder' w',
    embed_blocks tok items encoder acc w = (inr (d, encoder'), w').
Proof.
  intros Htotal. revert encoder acc w.
  induction items as [|[b lines] items IH]; intros encoder acc w; simpl.
  - by eexists _, _, _.
  - rewrite bind_run. unfold encode_batch.
    destruct (Htotal encoder (gen w) (tok lines)) as (out & self' & g' & ->).
    apply IH.
Qed.

(** The labeled script completes when its arguments are given, the output
    path is free, the saved architecture is a known class whose calls do not
    raise, and every block id of the labels file is a block of the log. *)
Lemma labeled_run_completes config w model input labels parent arch others c :
  model_path config = Some model ->
  input_dataset_log_file config = Some input ->
  input_dataset_labels_csv config = Some labels ->
  output_parent_folder config = Some parent ->
  output_path_usable fs
    (output_path parent input model (dataset_output_name config)) = true ->
  architectures (AutoConfig_from_pretrained model) = Some (arch :: others) ->
  dict_get (dict_by __name__ (dict_values KNOWN_ENCODER_CLASSES)) arch = inr c ->
  (forall (self : instance c) g enc,
     exists out self' g', cls_call c self g enc = (inr out, self', g')) ->
  Forall (fun row => is_Some (load_hdfs1_log_file_grouped (parse input)
                              !! BlockId row))
    (read_csv (parse labels)) ->
  exists w', embed_dataset config w = (inr tt, w').
Proof.
  intros Hm Hi Hl Hp Hu Harch Hc Htotal Hrows.
  rewrite (labeled_embed_dataset_given _ _ _ _ _ Hm Hi Hl Hp).
  rewrite bind_run. unfold lift, assert. rewrite Hu.
  rewrite embed_steps_run. cbn zeta.
  unfold first_architecture. rewrite Harch, Hc.
  rewrite encode_steps_run.
  destruct (embed_blocks_total c
              (AutoTokenizer_from_pretrained (base_model_name config))
              (map_to_list (load_hdfs1_log_file_grouped (parse input)))
              (cls_eval c (cls_from_pretrained c model)) ∅
              {| trace := trace {| trace := trace w
                                            ++ loads config model input labels;
                                   gen := gen w |}
                          ++ [LoadModel (__name__ c) model];
                 gen := gen {| trace := trace w
                                        ++ loads config model input labels;
                               gen := gen w |} |} Htotal)
    as (d & encoder' & w6 & Hblocks).
  rewrite Hblocks.
  destruct (embed_blocks_dom _ _ _ _ _ _ _ _ Hblocks) as [Hdom _].
  rewrite save_steps_run.
  destruct (traverse_total (block_embedding d)
              (map fst (labels_of (read_csv (parse labels))))) as [X ->].
  - unfold labels_of. rewrite List.map_map. simpl.
    apply List.Forall_map. eapply Forall_impl; [exact Hrows|].
    intros row Hrow%elem_of_dom. rewrite <- Hdom in Hrow.
    apply elem_of_dom in Hrow as [arr Harr].
    exists arr. unfold block_embedding. by rewrite Harr.
  - by eexists.
Qed.

(** C1. When the labeled script completes, its last three steps create the
    output directory, pickle a list [X] into [X.pickle] and save an array [y]
    into [y.npy]; both have one entry per row of the labels file, and for
    row [i], [y[i]] is 1 if the row's [Label] is the string [Anomaly] and 0
    otherwise, while [X[i]] is the array that the run's encoder call on the
    lines of the row's block returned. *)
Theorem labeled_outputs_aligned config w w' :
  embed_dataset config w = (inr tt, w') ->
  exists model input labels parent X y pre,
    model_path config = Some model /\
    input_dataset_log_file config = Some input /\
    input_dataset_labels_csv config = Some labels /\
    output_parent_folder config = Some parent /\
    let out := output_path parent input model (dataset_output_name config) in
    let rows := read_csv (parse labels) in
    let dataset := load_hdfs1_log_file_grouped (parse input) in
    trace w'
    = trace w ++ pre
      ++ [Mkdir out; PickleDump (child out "X.pickle") X;
          NpSave (child out "y.npy") y] /\
    length X = length rows /\
    length y = length rows /\
    forall i row,
      rows !! i = Some row ->
      y !! i = Some (if String.eqb (Label row) "Anomaly" then 1 else 0)%Z /\
      exists lines arr,
        dataset !! BlockId row = Some lines /\
        X !! i = Some arr /\
        Forward lines arr ∈ pre.
Proof.
  intros (model & input & labels & parent & arch & c & embedded & encoder'
          & w6 & X & Hm & Hi & Hl & Hp & _ & _ & Hblocks & HX & Htrace)
    %embed_dataset_inr.
  destruct (embed_blocks_dom _ _ _ _ _ _ _ _ Hblocks)
    as (Hdom & calls & Hw6 & _ & _ & Hcalls).
  exists model, input, labels, parent, X,
    (map (fun r => to_int8 (snd r)) (labels_of (read_csv (parse labels)))),
    (loads config model input labels ++ [LoadModel (__name__ c) model] ++ calls).
  do 4 (split; [done|]). cbn zeta. split_and!.
  - rewrite Htrace, Hw6. cbn [trace]. by rewrite <- !app_assoc.
  - rewrite (traverse_length _ _ _ HX). unfold labels_of.
    by rewrite !List.length_map.
  - unfold labels_of. by rewrite !List.length_map.
  - intros i row Hrow. split.
    + unfold labels_of. rewrite List.map_map.
      change (map ?f ?l) with (f <$> l). by rewrite list_lookup_fmap, Hrow.
    + apply traverse_inr in HX.
      assert (map fst (labels_of (read_csv (parse labels))) !! i
              = Some (BlockId row)) as Hkey.
      { unfold labels_of. rewrite List.map_map.
        change (map ?f ?l) with (f <$> l). by rewrite list_lookup_fmap, Hrow. }
      destruct (Forall2_lookup_l _ _ _ _ _ HX Hkey) as (arr & HXi & Harr).
      unfold block_embedding in Harr.
      destruct (embedded !! BlockId row) as [arr'|] eqn:Eb; [|done].
      injection Harr as ->.
      assert (is_Some (load_hdfs1_log_file_grouped (parse input)
                       !! BlockId row)) as [lines Hlines].
      { apply elem_of_dom. rewrite <- Hdom. apply elem_of_dom. eauto. }
      exists lines, arr. split_and!; [done..|].
      apply elem_of_map_to_list, list_elem_of_lookup in Hlines as [j Hj].
      destruct (Forall2_lookup_l _ _ _ _ _ Hcalls Hj)
        as (ev & Hev & arr2 & -> & Hd & _).
      simpl in Hd. rewrite Eb in Hd. injection Hd as <-.
      rewrite !elem_of_app. right. right.
      apply list_elem_of_lookup. eauto.
Qed.


(** C9. The encoder class is looked up, by [__name__], among the values of
    [KNOWN_ENCODER_CLASSES] under the first entry of the saved
    configuration's [architectures]: a class that is found has that name and
    is one of the known classes, a known class of that name makes the lookup
    succeed, and the run goes on with the class found. When no known class
    has that name the run fails without any encoder call, and the failure
    is the [KeyError] of the lookup, raised after the four loads, whenever
    the assertions before it pass. *)
Theorem encoder_class_lookup config w model arch others :
  model_path config = Some model ->
  architectures (AutoConfig_from_pretrained model) = Some (arch :: others) ->
  let known := dict_by __name__ (dict_values KNOWN_ENCODER_CLASSES) in
  (forall c, dict_get known arch = inr c ->
     __name__ c = arch /\ c ∈ dict_values KNOWN_ENCODER_CLASSES) /\
  (forall c, c ∈ dict_values KNOWN_ENCODER_CLASSES -> __name__ c = arch ->
     exists c', dict_get known arch = inr c') /\
  (forall c input labels parent,
     dict_get known arch = inr c ->
     input_dataset_log_file config = Some input ->
     input_dataset_labels_csv config = Some labels ->
     output_parent_folder config = Some parent ->
     let out := output_path parent input model (dataset_output_name config) in
     output_path_usable fs out = true ->
     embed_dataset config w
     = encode_steps model out (load_hdfs1_log_file_grouped (parse input))
         (labels_of (read_csv (parse labels)))
         (AutoTokenizer_from_pretrained (base_model_name config)) c
         {| trace := trace w ++ loads config model input labels;
            gen := gen w |}) /\
  ((forall c, c ∈ dict_values KNOWN_ENCODER_CLASSES -> __name__ c <> arch) ->
   exists e w' new,
     embed_dataset config w = (inl e, w') /\
     trace w' = trace w ++ new /\
     Forall (fun ev => is_forward ev = false) new /\
     (forall input labels parent,
        input_dataset_log_file config = Some input ->
        input_dataset_labels_csv config = Some labels ->
        output_parent_folder config = Some parent ->
        output_path_usable fs
          (output_path parent input model (dataset_output_name config)) = true ->
        e = KeyError arch /\ new = loads config model input labels)).
Proof.
  intros Hm Harch known.
  assert (first_architecture (AutoConfig_from_pretrained model) = inr arch)
    as Hfirst by (unfold first_architecture; by rewrite Harch).
  split_and!.
  - intros c. apply dict_by_get_inr.
  - intros c Hc Hname. by eapply dict_by_get_present.
  - intros c input labels parent Hc Hi Hl Hp out Hu. subst out.
    rewrite (labeled_embed_dataset_given _ _ _ _ _ Hm Hi Hl Hp).
    rewrite bind_run. unfold lift, assert. rewrite Hu.
    rewrite embed_steps_run. cbn zeta. rewrite Hfirst. fold known.
    by rewrite Hc.
  - intros Hnone.
    assert (dict_get known arch = inl (KeyError arch)) as Hget
      by (by apply dict_by_get_missing).
    destruct (input_dataset_log_file config) as [input|] eqn:Hi; cycle 1.
    { destruct (labeled_missing_argument config w) as [msg Hmsg];
        [by right; left|].
      exists (AssertionError msg), w, []. rewrite app_nil_r.
      split_and!; done. }
    destruct (input_dataset_labels_csv config) as [labels|] eqn:Hl; cycle 1.
    { destruct (labeled_missing_argument config w) as [msg Hmsg];
        [by right; right; left|].
      exists (AssertionError msg), w, []. rewrite app_nil_r.
      split_and!; done. }
    destruct (output_parent_folder config) as [parent|] eqn:Hp; cycle 1.
    { destruct (labeled_missing_argument config w) as [msg Hmsg];
        [by right; right; right|].
      exists (AssertionError msg), w, []. rewrite app_nil_r.
      split_and!; done. }
    rewrite (labeled_embed_dataset_given _ _ _ _ _ Hm Hi Hl Hp).
    destruct (output_path_usable fs
                (output_path parent input model (dataset_output_name config)))
      eqn:Hu.
    + exists (KeyError arch),
        {| trace := trace w ++ loads config model input labels; gen := gen w |},
        (loads config model input labels).
      split_and!.
      * rewrite bind_run. unfold lift, assert.
        rewrite embed_steps_run. cbn zeta. rewrite Hfirst. fold known.
        by rewrite Hget.
      * done.
      * unfold loads. by repeat constructor.
      * by intros ??? [= <-] [= <-] [= <-] _.
    + eexists _, w, []. rewrite app_nil_r. split_and!.
      * rewrite bind_run. unfold lift, assert. reflexivity.
      * done.
      * done.
      * intros ??? [= <-] [= <-] [= <-] Hu'. congruence.
Qed.

End Labeled.

Import Demo.

Example demo_labeled_run :
  trace (embed_dataset demo_labeled_config demo_world).2
  = [LoadDataset (mkPath "" ["logs"; "HDFS1.log"]);
     ReadCsv (mkPath "" ["logs"; "labels.csv"]);
     LoadTokenizer "distilbert-base-cased";
     LoadConfig "models/run_1";
     LoadModel "DistilBertForClsEmbedding" "models/run_1";
     Forward ["a"; "bcd"] [[202; 507; 812]; [202; 507; 812]]%Z;
     Forward ["ef"] [[202; 507; 812]]%Z;
     Mkdir (mkPath "" ["data"; "out"; "HDFS1"; "labeled_embedding_from_run_1"]);
     PickleDump
       (mkPath "" ["data"; "out"; "HDFS1"; "labeled_embedding_from_run_1";
                   "X.pickle"])
       [[[202; 507; 812]]; [[202; 507; 812]; [202; 507; 812]];
        [[202; 507; 812]]]%Z;
     NpSave
       (mkPath "" ["data"; "out"; "HDFS1"; "labeled_embedding_from_run_1";
                   "y.npy"])
       [1; 0; 1]%Z].
Proof. vm_compute. reflexivity. Qed.

Example demo_labeled_unknown_architecture :
  embed_dataset (Library0 := demo_unknown_library) demo_labeled_config demo_world
  = (inl (KeyError "BertModel"),
     {| trace := [LoadDataset (mkPath "" ["logs"; "HDFS1.log"]);
                  ReadCsv (mkPath "" ["logs"; "labels.csv"]);
                  LoadTokenizer "distilbert-base-cased";
                  LoadConfig "models/run_1"];
        gen := 5 |}).
Proof. vm_compute. reflexivity. Qed.

Lemma labeled_outputs_aligned_witness :
  exists w',
    embed_dataset demo_labeled_config demo_world = (inr tt, w') /\
    exists X y pre out,
      trace w'
      = trace demo_world ++ pre
        ++ [Mkdir out; PickleDump (child out "X.pickle") X;
            NpSave (child out "y.npy") y] /\
      length X = 3 /\ length y = 3.
Proof.
  exists (embed_dataset demo_labeled_config demo_world).2.
  assert (embed_dataset demo_labeled_config demo_world
          = (inr tt, (embed_dataset demo_labeled_config demo_world).2))
    as Hrun by (vm_compute; reflexivity).
  split; [exact Hrun|].
  destruct (labeled_outputs_aligned demo_labeled_config demo_world _ Hrun)
    as (model & input & labels & parent & X & y & pre & _ & _ & _ & _
        & Htrace & HX & Hy & _).
  exists X, y, pre. eexists. split; [exact Htrace|]. split; [exact HX|exact Hy].
Defined.


Lemma encoder_class_lookup_witness :
  (exists c,
     dict_get (dict_by __name__ (dict_values demo_classes))
       "DistilBertForClsEmbedding" = inr c) /\
  (exists e w' new,
     embed_dataset (Library0 := demo_unknown_library) demo_labeled_config
       demo_world = (inl e, w') /\
     trace w' = trace demo_world ++ new /\
     Forall (fun ev => is_forward ev = false) new).
Proof.
  split.
  - pose proof (encoder_class_lookup demo_labeled_config demo_world
                  "models/run_1" "DistilBertForClsEmbedding" [] eq_refl eq_refl)
      as (_ & Hpresent & _).
    apply (Hpresent (DistilBertForClsEmbedding_class demo_checkpoint));
      [|reflexivity].
    unfold dict_values. simpl. constructor.
  - pose proof (encoder_class_lookup (Library0 := demo_unknown_library)
                  demo_labeled_config demo_world
                  "models/run_1" "BertModel" [] eq_refl eq_refl)
      as (_ & _ & _ & Hmissing).
    destruct Hmissing as (e & w' & new & Hrun & Htrace & Hnew & _).
    + intros c Hc. unfold dict_values in Hc. simpl in Hc.
      apply list_elem_of_singleton in Hc as ->. simpl. discriminate.
    + by exists e, w', new.
Defined.

End EmbedLabeledFacts.

(** ** Both embedding scripts *)

Module EmbeddingFacts.
Import Py PyFacts Pathlib Torch Encoders Script ScriptFacts.
Import EmbedDatasetFacts EmbedLabeledFacts Demo.

Section Both.
Context {R : Type} `{Backend R}.
Context `{!EmbedDataset.Library R} `{!EmbedLabeled.Library R}.

(** C8. In both scripts a missing required argument, or an output path that
    exists and is not an empty directory (a regular file, or a directory with
    an entry), makes [embed_dataset] raise an [AssertionError] and leave the
    world as it found it: nothing is loaded and nothing is written. When the
    output path is absent or is an empty directory, the run goes on: its
    next step is the load of the input dataset. *)
Theorem output_path_guard :
  (forall config w,
     (EmbedDataset.model_path config = None
      \/ EmbedDataset.input_dataset_log_file config = None
      \/ EmbedDataset.output_parent_folder config = None ->
      exists msg,
        EmbedDataset.embed_dataset config w = (inl (AssertionError msg), w)) /\
     forall model input parent,
       EmbedDataset.model_path config = Some model ->
       EmbedDataset.input_dataset_log_file config = Some input ->
       EmbedDataset.output_parent_folder config = Some parent ->
       let out := EmbedDataset.output_path parent input model
                    (EmbedDataset.dataset_output_name config) in
       ((exists n, EmbedDataset.fs out = Some n /\ n <> Directory []) ->
        exists msg,
          EmbedDataset.embed_dataset config w = (inl (AssertionError msg), w)) /\
       (EmbedDataset.fs out = None \/ EmbedDataset.fs out = Some (Directory []) ->
        exists rest,
          trace (EmbedDataset.embed_dataset config w).2
          = trace w ++ LoadDataset (parse input) :: rest)) /\
  (forall config w,
     (EmbedLabeled.model_path config = None
      \/ EmbedLabeled.input_dataset_log_file config = None
      \/ EmbedLabeled.input_dataset_labels_csv config = None
      \/ EmbedLabeled.output_parent_folder config = None ->
      exists msg,
        EmbedLabeled.embed_dataset config w = (inl (AssertionError msg), w)) /\
     forall model input parent,
       EmbedLabeled.model_path config = Some model ->
       EmbedLabeled.input_dataset_log_file config = Some input ->
       EmbedLabeled.output_parent_folder config = Some parent ->
       let out := EmbedLabeled.output_path parent input model
                    (EmbedLabeled.dataset_output_name config) in
       ((exists n, EmbedLabeled.fs out = Some n /\ n <> Directory []) ->
        exists msg,
          EmbedLabeled.embed_dataset config w = (inl (AssertionError msg), w)) /\
       (EmbedLabeled.fs out = None \/ EmbedLabeled.fs out = Some (Directory []) ->
        forall labels,
          EmbedLabeled.input_dataset_labels_csv config = Some labels ->
          exists rest,
            trace (EmbedLabeled.embed_dataset config w).2
            = trace w ++ LoadDataset (parse input) :: rest)).
Proof.
  split; intros config w; (split; [intros Hmissing|]).
  - by apply raw_missing_argument.
  - intros model input parent Hm Hi Hp out.
    destruct (raw_guard config model input parent w Hm Hi Hp) as [Hno Hyes].
    split.
    + intros Hn%output_path_unusable_spec. by apply Hno.
    + intros Hn%output_path_usable_spec. by apply Hyes.
  - by apply labeled_missing_argument.
  - intros model input parent Hm Hi Hp out.
    destruct (labeled_guard config model input parent w Hm Hi Hp) as [Hno Hyes].
    split.
    + intros Hn%output_path_unusable_spec. by apply Hno.
    + intros Hn%output_path_usable_spec. by apply Hyes.
Qed.


End Both.


Example demo_raw_run :
  trace (EmbedDataset.embed_dataset demo_raw_config demo_world).2
  = [LoadDataset (mkPath "" ["logs"; "HDFS1.log"]);
     LoadTokenizer "distilbert-base-cased";
     LoadModel "DistilBertForClsEmbedding" "models/run_1";
     Forward ["a"; "bcd"] [[202; 507; 812]; [202; 507; 812]]%Z;
     Forward ["ef"] [[202; 507; 812]]%Z;
     SaveToDisk
       (mkPath "" ["data"; "out"; "HDFS1"; "embedding_from_run_1"])
       [("a", [202; 507; 812]); ("bcd", [202; 507; 812]);
        ("ef", [202; 507; 812])]%Z].
Proof. vm_compute. reflexivity. Qed.

Lemma output_path_guard_witness :
  (exists msg,
     EmbedDataset.embed_dataset demo_blocked_config demo_world
     = (inl (AssertionError msg), demo_world)) /\
  (exists rest,
     trace (EmbedLabeled.embed_dataset demo_labeled_config demo_world).2
     = trace demo_world ++ LoadDataset (parse "logs/HDFS1.log") :: rest).
Proof.
  pose proof (output_path_guard (R := Z)) as [Hraw Hlabeled].
  split.
  - destruct (Hraw demo_blocked_config demo_world) as [_ Hgiven].
    destruct (Hgiven "models/run_1" "logs/HDFS1.log" "data"
                eq_refl eq_refl eq_refl) as [Hblocked _].
    apply Hblocked. exists RegularFile. split; [reflexivity|discriminate].
  - destruct (Hlabeled demo_labeled_config demo_world) as [_ Hgiven].
    destruct (Hgiven "models/run_1" "logs/HDFS1.log" "data/out"
                eq_refl eq_refl eq_refl) as [_ Hfree].
    apply (Hfree (or_introl eq_refl) "logs/labels.csv" eq_refl).
Defined.


End EmbeddingFacts.

(** ** More on [train_ict_preprocessed_data.py] *)

Module TrainIctMore.
Import Py PyFacts Pathlib PathFacts TrainIct TrainIctFacts Demo.

#[local] Arguments String.append !_ _ / : simpl nomatch.
#[local] Arguments str_of_int : simpl never.

Lemma dict_in_get {V : Type} (d : dict V) k :
  dict_in k d = true <-> exists v, dict_get d k = inr v.
Proof.
  induction d as [|[k' v'] d IH]; simpl.
  - split; [done|]. by intros [v ?].
  - destruct (String.eqb k' k); simpl; [|done].
    split; [by exists v'|done].
Qed.

(** [run_experiment] reaches the training call exactly when the dataset
    name and both dataset directories are given and the encoder type is a
    key of [KNOWN_ENCODER_CLASSES]. Every other run stops at an assertion, in
    the order of the source: the lookup of the tower class never raises. *)
Theorem run_experiment_outcome {C : Type} (K : dict C) tok config :
  ((exists e, run_experiment K tok config = inr e) <->
   is_Some (dataset_name config) /\ dict_in (encoder_type config) K = true /\
   is_Some (train_dataset config) /\ is_Some (eval_dataset config)) /\
  (forall err, run_experiment K tok config = inl err ->
     exists msg, err = AssertionError msg) /\
  (dataset_name config = None ->
   run_experiment K tok config
   = inl (AssertionError "Dataset name must be filled")) /\
  (is_Some (dataset_name config) -> dict_in (encoder_type config) K = false ->
   run_experiment K tok config
   = inl (AssertionError
            ("Encoder type must be one of valid options, which are ["
             +:+ join "," (dict_keys K) +:+ "]"))) /\
  (is_Some (dataset_name config) -> dict_in (encoder_type config) K = true ->
   train_dataset config = None ->
   run_experiment K tok config
   = inl (AssertionError "Train dataset must not be None")) /\
  (is_Some (dataset_name config) -> dict_in (encoder_type config) K = true ->
   is_Some (train_dataset config) -> eval_dataset config = None ->
   run_experiment K tok config
   = inl (AssertionError "Eval dataset must not be None")).
Proof.
  unfold run_experiment.
  destruct (dataset_name config) as [ds|] eqn:Hds; simpl; cycle 1.
  { split_and!; try done; try (by intros [? ?]);
      try (intros err [= <-]; by eexists).
    split; [by intros [e ?]|]. by intros [[? ?] _]. }
  destruct (dict_in (encoder_type config) K) eqn:Hin; simpl; cycle 1.
  { split_and!; try done; try (intros err [= <-]; by eexists).
    split; [by intros [e ?]|]. by intros (_ & ? & _). }
  destruct (train_dataset config) as [tr|] eqn:Htr; simpl; cycle 1.
  { split_and!; try done; try (by intros _ _ [? ?]);
      try (intros err [= <-]; by eexists).
    split; [by intros [e ?]|]. by intros (_ & _ & [? ?] & _). }
  destruct (eval_dataset config) as [ev|] eqn:Hev; simpl; cycle 1.
  { split_and!; try done; try (intros err [= <-]; by eexists).
    split; [by intros [e ?]|]. by intros (_ & _ & _ & [? ?]). }
  apply dict_in_get in Hin as [tower_class Hget]. rewrite Hget. simpl.
  split_and!; try done.
  split; [|by eexists]. intros _. split_and!; by eauto.
Qed.

(** Splitting at the separator undoes joining, for words without it. *)
Lemma split_chr_join c ws :
  ws <> [] -> Forall (fun w => chr_in c w = false) ws ->
  split_chr c (join (String c "") ws) = ws.
Proof.
  intros Hne Hws. induction Hws as [|w ws Hw Hws IH]; [done|].
  destruct ws as [|w' ws].
  - simpl. by apply split_chr_without.
  - change (join (String c "") (w :: w' :: ws))
      with (w +:+ String c (join (String c "") (w' :: ws))).
    rewrite split_chr_app_sep by done. by rewrite IH.
Qed.

(** [str] of an integer determines the integer. *)
Lemma str_of_int_inj n m : str_of_int n = str_of_int m -> n = m.
Proof.
  unfold str_of_int. intros Hs.
  assert (forall z, NilZero.int_of_string (NilZero.string_of_int (Z.to_int z))
                    = Some (Z.to_int z)) as Hisi.
  { intros z. apply NilZero.isi; destruct z; simpl; try done;
      intros [= Hp]; by apply DecimalPos.Unsigned.to_uint_nonnil in Hp. }
  apply DecimalZ.to_int_inj.
  pose proof (Hisi n) as Hn. rewrite Hs, Hisi in Hn. by injection Hn.
Qed.

Lemma run_name_words_spaceless tt fp ds seed t c tr ev od enc ckpt :
  chr_in " " enc = false -> chr_in " " ckpt = false -> chr_in " " ds = false ->
  Forall (fun w => chr_in " " w = false)
    (run_name_words tt fp ds seed t c tr ev od enc ckpt).
Proof.
  intros Henc Hckpt Hds. unfold run_name_words.
  assert (forall n, chr_in " " (str_of_int n) = false) as Hint
    by (intros n; by apply str_of_int_without).
  assert (chr_in " " ("Seed-" +:+ str_of_int seed) = false) as Hseed
    by (by rewrite chr_in_app, Hint).
  destruct (truthy tt), fp; simpl; repeat (constructor; [done|]); constructor.
Qed.

Lemma split_run_name tt fp ds seed t c tr ev od enc ckpt :
  chr_in " " enc = false -> chr_in " " ckpt = false -> chr_in " " ds = false ->
  split_chr " " (get_run_name tt fp ds seed t c tr ev od enc ckpt)
  = run_name_words tt fp ds seed t c tr ev od enc ckpt.
Proof.
  intros Henc Hckpt Hds. rewrite get_run_name_join.
  apply split_chr_join; [|by apply run_name_words_spaceless].
  unfold run_name_words. by destruct (truthy tt), fp.
Qed.

(** When the encoder type, the checkpoint and the dataset name contain no
    space, splitting the run name at spaces gives back its words: the third
    word is [2T] for a two-tower run and [1T] otherwise, and the name has
    sixteen words when [fp16] is set and fifteen when it is not. *)
Theorem run_name_words_recovered tt fp ds seed t c tr ev od enc ckpt :
  chr_in " " enc = false -> chr_in " " ckpt = false -> chr_in " " ds = false ->
  let words := split_chr " " (get_run_name tt fp ds seed t c tr ev od enc ckpt) in
  words = [enc; ckpt; if truthy tt then "2T" else "1T"]
          ++ (if fp then ["fp16"] else [])
          ++ [ds; "Seed-" +:+ str_of_int seed;
              "T-len"; str_of_int t; "C-len"; str_of_int c;
              "Tr-batch"; str_of_int tr; "Ev-b"; str_of_int ev;
              "O-dim"; str_of_int od] /\
  words !! 0 = Some enc /\
  words !! 1 = Some ckpt /\
  (words !! 2 = Some "2T" <-> truthy tt = true) /\
  (words !! 2 = Some "1T" <-> truthy tt = false) /\
  (length words = 16 <-> fp = true) /\
  (length words = 15 <-> fp = false).
Proof.
  intros Henc Hckpt Hds. cbn zeta.
  rewrite split_run_name by done. unfold run_name_words.
  split_and!; try done; destruct (truthy tt), fp; simpl; split; done.
Qed.

Lemma run_name_words_recovered_witness :
  split_chr " " (get_run_name 1 true "HDFS1" 42 512 512 64 64 100
                   "DistilbertCls" "distilbert-base-cased") !! 2
  = Some "2T".
Proof.
  pose proof (run_name_words_recovered 1 true "HDFS1" 42 512 512 64 64 100
                "DistilbertCls" "distilbert-base-cased" eq_refl eq_refl eq_refl)
    as (_ & _ & _ & H2T & _).
  by apply H2T.
Defined.

(** Two configurations whose three names contain no space get the same run
    name only if they agree on every argument ([two_tower] up to its truth
    value). *)
Theorem get_run_name_injective
    tt fp ds seed t c tr ev od enc ckpt
    tt' fp' ds' seed' t' c' tr' ev' od' enc' ckpt' :
  chr_in " " enc = false -> chr_in " " ckpt = false -> chr_in " " ds = false ->
  chr_in " " enc' = false -> chr_in " " ckpt' = false -> chr_in " " ds' = false ->
  get_run_name tt fp ds seed t c tr ev od enc ckpt
  = get_run_name tt' fp' ds' seed' t' c' tr' ev' od' enc' ckpt' ->
  truthy tt = truthy tt' /\ fp = fp' /\ ds = ds' /\ seed = seed' /\
  t = t' /\ c = c' /\ tr = tr' /\ ev = ev' /\ od = od' /\
  enc = enc' /\ ckpt = ckpt'.
Proof.
  intros Henc Hckpt Hds Henc' Hckpt' Hds' Hname.
  apply (f_equal (split_chr " ")) in Hname.
  rewrite !split_run_name in Hname by done.
  unfold run_name_words in Hname.
  destruct (truthy tt), (truthy tt'), fp, fp'; simpl in Hname;
    try discriminate Hname;
    injection Hname as -> -> -> Hseed%str_of_int_inj Ht%str_of_int_inj
      Hc%str_of_int_inj Htr%str_of_int_inj Hev%str_of_int_inj
      Hod%str_of_int_inj;
    by subst.
Qed.

Lemma get_run_name_injective_witness :
  truthy 1 = truthy 2 /\ (42 = 42)%Z.
Proof.
  pose proof (get_run_name_injective
                1 false "HDFS1" 42 512 512 64 64 100 "DistilbertCls" "base"
                2 false "HDFS1" 42 512 512 64 64 100 "DistilbertCls" "base"
                eq_refl eq_refl eq_refl eq_refl eq_refl eq_refl eq_refl)
    as (Htt & _ & _ & Hseed & _).
  split; [exact Htt|exact Hseed].
Defined.

End TrainIctMore.

(** ** More on [encoders.py] *)

Module EncoderMore.
Import Py PyFacts Torch Encoders EncoderFacts Demo.


Lemma traverse_Exists_inl {A B : Type} (f : A -> result B) xs :
  Exists (fun x => exists e, f x = inl e) xs -> exists e, traverse f xs = inl e.
Proof.
  induction 1 as [x xs [e He]|x xs _ [e IH]]; simpl.
  - rewrite He. by exists e.
  - destruct (f x) as [e'|y]; [by exists e'|]. rewrite IH. by exists e.
Qed.

Section Head.
Context {R : Type} `{Backend R}.


(** The constructor's [setdefault] keeps what the configuration already
    says: an existing [cls_embedding_dimension] is used as it is and the
    configuration is unchanged, every other key of [task_specific_params]
    survives, and [dim] and [architectures] are not touched. Building a
    model again from the configuration a model kept (as saving and loading
    does) gives the same configuration and a projection of the same shape. *)
Theorem constructor_keeps_configuration (cfg : PretrainedConfig)
    (v v' : state_values R) :
  let m := __init__ cfg v in
  (forall params d,
     task_specific_params cfg = Some params ->
     params !! "cls_embedding_dimension" = Some d ->
     config m = cfg /\ out_features (cls_projector m) = d) /\
  (forall k, k <> "cls_embedding_dimension" ->
     default ∅ (task_specific_params (config m)) !! k
     = default ∅ (task_specific_params cfg) !! k) /\
  dim (config m) = dim cfg /\
  architectures (config m) = architectures cfg /\
  in_features (cls_projector m) = dim cfg /\
  out_features (cls_projector m) = configured_dimension cfg /\
  config (__init__ (config m) v') = config m /\
  in_features (cls_projector (__init__ (config m) v'))
  = in_features (cls_projector m) /\
  out_features (cls_projector (__init__ (config m) v'))
  = out_features (cls_projector m).
Proof.
  cbn zeta.
  assert (forall cfg0 (v0 : state_values R),
            config (__init__ cfg0 v0)
            = {| dim := dim cfg0;
                 task_specific_params := Some (cls_embedding_dimension cfg0).2;
                 architectures := architectures cfg0 |} /\
            in_features (cls_projector (__init__ cfg0 v0)) = dim cfg0 /\
            out_features (cls_projector (__init__ cfg0 v0))
            = configured_dimension cfg0) as Hinit.
  { intros cfg0 v0. unfold __init__.
    destruct (cls_embedding_dimension_value cfg0) as [Hd _].
    by destruct (cls_embedding_dimension cfg0) as [d params]. }
  destruct (Hinit cfg v) as (Hcfg & Hin & Hout).
  assert (configured_dimension (config (__init__ cfg v))
          = configured_dimension cfg) as Hsame.
  { rewrite Hcfg. unfold configured_dimension at 1.
    cbn [task_specific_params].
    destruct (cls_embedding_dimension_value cfg) as [_ Hkey].
    transitivity (default 512 (Some (configured_dimension cfg))); [|done].
    f_equal. exact Hkey. }
  split_and!; try done.
  - intros params d Hparams Hd. split.
    + rewrite Hcfg. unfold cls_embedding_dimension, setdefault.
      rewrite Hparams, Hd. simpl. destruct cfg. simpl in *. by subst.
    + rewrite Hout. unfold configured_dimension. by rewrite Hparams, Hd.
  - intros k Hk. rewrite Hcfg. simpl.
    unfold cls_embedding_dimension, setdefault.
    destruct (task_specific_params cfg) as [params|]; simpl.
    + destruct (params !! "cls_embedding_dimension"); simpl; [done|].
      by rewrite lookup_insert_ne.
    + rewrite lookup_empty. simpl. by rewrite lookup_insert_ne.
  - by rewrite Hcfg.
  - by rewrite Hcfg.
  - destruct (Hinit (config (__init__ cfg v)) v') as (-> & _ & _).
    rewrite Hcfg. cbn [dim architectures]. f_equal. f_equal.
    unfold cls_embedding_dimension at 1, setdefault.
    cbn [task_specific_params].
    destruct (cls_embedding_dimension_value cfg) as [_ Hkey].
    destruct (_ !! _) as [d|] eqn:Ed; [done|]. congruence.
  - destruct (Hinit (config (__init__ cfg v)) v') as (_ & -> & _).
    by rewrite Hin, Hcfg.
  - destruct (Hinit (config (__init__ cfg v)) v') as (_ & _ & ->).
    by rewrite Hout.
Qed.

End Head.

Example demo_forward_wrong_width :
  (forward (__init__ (mkConfig 3 None None) demo_values) 4
     [[101; 2; 102]]%Z [[1; 1; 1]]%Z).1.1
  = inl (RuntimeError "mat1 and mat2 shapes cannot be multiplied").
Proof. reflexivity. Qed.


End EncoderMore.

(** ** More on [embed_dataset_using_pretrained_model.py] *)

Module EmbedDatasetMore.
Import Py PyFacts Pathlib Torch Encoders Script ScriptFacts EmbedDataset.
Import EmbedDatasetFacts Observations Demo.

Lemma slices_concat {A : Type} (fuel n : nat) (xs : list A) :
  0 < n -> length xs <= fuel -> concat (slices fuel n xs) = xs.
Proof.
  intros Hn. revert xs. induction fuel as [|fuel IH]; intros xs Hlen.
  - destruct xs; [done|]. simpl in Hlen. lia.
  - destruct xs as [|x xs]; [done|].
    change (slices (S fuel) n (x :: xs))
      with (take n (x :: xs) :: slices fuel n (drop n (x :: xs))).
    simpl concat. rewrite IH, take_drop; [done|].
    rewrite length_drop. simpl in *. lia.
Qed.

Lemma slices_sizes {A : Type} (fuel n : nat) (xs : list A) :
  0 < n -> length xs <= fuel ->
  forall i b, slices fuel n xs !! i = Some b ->
    b <> [] /\ length b <= n /\
    (is_Some (slices fuel n xs !! S i) -> length b = n).
Proof.
  intros Hn. revert xs. induction fuel as [|fuel IH]; intros xs Hlen i b.
  - by destruct xs.
  - destruct xs as [|x xs]; [done|].
    change (slices (S fuel) n (x :: xs))
      with (take n (x :: xs) :: slices fuel n (drop n (x :: xs))).
    destruct i as [|i].
    + intros [= <-]. split_and!.
      * destruct n; [lia|done].
      * rewrite length_take. lia.
      * intros [b' Hb']. simpl in Hb'.
        rewrite length_take. apply Nat.min_l.
        destruct (decide (n <= length (x :: xs))) as [|Hshort]; [done|].
        rewrite drop_ge in Hb' by lia. by destruct fuel.
    + apply IH. rewrite length_drop. simpl in *. lia.
Qed.

Lemma batches_concat {A : Type} (batch_size : Z) (rows : list A) :
  concat (batches batch_size rows) = rows.
Proof.
  unfold batches. destruct (Z.leb_spec batch_size 0) as [Hle|Hlt].
  - destruct rows; simpl; [done|]. by rewrite app_nil_r.
  - apply slices_concat; lia.
Qed.

(** The batches of [Dataset.map(batched=True, batch_size=n)]: put together
    again they are the rows, in order; none is empty; for a positive [n]
    every batch has at most [n] rows and every batch but the last exactly
    [n]; for [n <= 0] the whole dataset is one batch; an empty dataset has
    no batch. *)
Theorem batches_partition {A : Type} (batch_size : Z) (rows : list A) :
  concat (batches batch_size rows) = rows /\
  Forall (fun b => b <> []) (batches batch_size rows) /\
  ((0 < batch_size)%Z ->
   forall i b, batches batch_size rows !! i = Some b ->
     length b <= Z.to_nat batch_size /\
     (is_Some (batches batch_size rows !! S i) ->
      length b = Z.to_nat batch_size)) /\
  ((batch_size <= 0)%Z -> rows <> [] -> batches batch_size rows = [rows]) /\
  batches batch_size (@nil A) = [].
Proof.
  split; [apply batches_concat|].
  unfold batches. destruct (Z.leb_spec batch_size 0) as [Hle|Hlt].
  - split_and!.
    + destruct rows; by repeat constructor.
    + lia.
    + by destruct rows.
    + done.
  - assert (0 < Z.to_nat batch_size) as Hn by lia. split_and!.
    + apply Forall_forall. intros b [i Hi]%list_elem_of_lookup.
      by eapply (slices_sizes (length rows)).
    + intros _ i b Hi.
      destruct (slices_sizes (length rows) (Z.to_nat batch_size) rows Hn
                  (le_n _) i b Hi) as (_ & ? & ?). done.
    + lia.
    + done.
Qed.

Example batches_of_five : batches 2 [1; 2; 3; 4; 5] = [[1; 2]; [3; 4]; [5]].
Proof. reflexivity. Qed.

Section Raw.
Context {R : Type} `{Backend R} `{!Library R}.

Lemma encode_dataset_inr texts tok (encoder : DistilBertForClsEmbedding R)
    w emb encoder' w' :
  encode_dataset texts tok encoder w = (inr (emb, encoder'), w') ->
  trace w' = trace w ++ [Forward texts emb].
Proof.
  unfold encode_dataset.
  destruct (forward _ _ _ _) as [[[e|o] enc1] g1]; [done|].
  by intros [= <- <- <-].
Qed.



(** A completed batched map has called the encoder once per batch and
    paired every row with its embedding. *)
Lemma map_batched_inr tok bs (encoder : DistilBertForClsEmbedding R)
    w rows encoder' w' :
  map_batched tok bs encoder w = (inr (rows, encoder'), w') ->
  exists embs,
    Forall2 (fun b emb => length emb = length b) bs embs /\
    rows = zip (concat bs) (concat embs) /\
    trace w' = trace w ++ zip_with Forward bs embs.
Proof.
  revert encoder w rows. induction bs as [|b bs IH]; intros encoder w rows;
    simpl.
  - intros [= <- <- <-]. exists []. rewrite app_nil_r.
    split_and!; [constructor|done..].
  - rewrite bind_run.
    destruct (encode_dataset b tok encoder w) as [[e|[emb enc1]] w1] eqn:E1;
      [done|].
    apply encode_dataset_inr in E1. rewrite bind_run. unfold lift.
    destruct (Nat.eqb (length emb) (length b)) eqn:Elen; [|done].
    apply Nat.eqb_eq in Elen. rewrite bind_run.
    destruct (map_batched tok bs enc1 w1) as [[e|[rows2 enc2]] w2] eqn:E2;
      [done|].
    intros [= <- <- <-].
    destruct (IH _ _ _ E2) as (embs & Hlens & -> & Htrace).
    exists (emb :: embs). split_and!.
    + by constructor.
    + simpl. by rewrite zip_with_app.
    + simpl. by rewrite Htrace, E1, <- app_assoc.
Qed.

(** A completed run of the raw script has loaded the dataset, the tokenizer
    and the model, called the encoder once per batch of the cleaned dataset
    (the lines as loaded, or with [remove_timestamp] applied when
    [--remove-hdfs1-timestamp] is set), and saved one row per line, in the
    order of the file: row [i] pairs cleaned line [i] with the [i]-th
    embedding that the calls returned. *)
Theorem raw_run_rows config w encoder' w' :
  embed_dataset config w = (inr encoder', w') ->
  exists model input parent embs,
    model_path config = Some model /\
    input_dataset_log_file config = Some input /\
    output_parent_folder config = Some parent /\
    let out := output_path parent input model (dataset_output_name config) in
    let dataset := load_dataset (parse input) in
    let cleaned := if remove_hdfs1_timestamp config
                   then map remove_timestamp dataset else dataset in
    let bs := batches (batch_size config) cleaned in
    Forall2 (fun b emb => length emb = length b) bs embs /\
    length (concat embs) = length dataset /\
    trace w'
    = trace w
      ++ [LoadDataset (parse input); LoadTokenizer (base_model_name config);
          LoadModel "DistilBertForClsEmbedding" model]
      ++ zip_with Forward bs embs
      ++ [SaveToDisk out (zip cleaned (concat embs))].
Proof.
  intros Hrun.
  destruct (model_path config) as [model|] eqn:Hm; cycle 1.
  { destruct (raw_missing_argument config w) as [msg Hmsg]; [by left|].
    congruence. }
  destruct (input_dataset_log_file config) as [input|] eqn:Hi; cycle 1.
  { destruct (raw_missing_argument config w) as [msg Hmsg]; [by right; left|].
    congruence. }
  destruct (output_parent_folder config) as [parent|] eqn:Hp; cycle 1.
  { destruct (raw_missing_argument config w) as [msg Hmsg];
      [by right; right|]. congruence. }
  rewrite (raw_embed_dataset_given _ _ _ _ Hm Hi Hp) in Hrun.
  rewrite bind_run in Hrun. unfold lift, assert in Hrun.
  destruct (output_path_usable _ _); [|done].
  unfold embed_steps in Hrun.
  do 3 (rewrite bind_run in Hrun; simpl in Hrun).
  rewrite bind_run in Hrun.
  destruct (map_batched _ _ _ _) as [[e|[rows enc2]] w2] eqn:Hmap; [done|].
  rewrite bind_run in Hrun. simpl in Hrun. injection Hrun as <- <-.
  destruct (map_batched_inr _ _ _ _ _ _ _ Hmap) as (embs & Hlens & -> & Htrace).
  exists model, input, parent, embs. do 3 (split; [done|]). cbn zeta.
  pose proof (batches_concat (batch_size config)
                (if remove_hdfs1_timestamp config
                 then map remove_timestamp (load_dataset (parse input))
                 else load_dataset (parse input))) as Hconcat.
  assert (length (concat embs)
          = length (concat (batches (batch_size config)
                       (if remove_hdfs1_timestamp config
                        then map remove_timestamp (load_dataset (parse input))
                        else load_dataset (parse input))))) as Hlen.
  { clear -Hlens. induction Hlens as [|b emb bs embs Hb _ IH]; [done|].
    simpl. rewrite !length_app. congruence. }
  split_and!.
  - done.
  - rewrite Hlen, Hconcat. destruct (remove_hdfs1_timestamp config); [|done].
    by rewrite List.length_map.
  - simpl. rewrite Htrace. simpl. rewrite Hconcat.
    by rewrite <- !app_assoc.
Qed.


End Raw.

Example demo_raw_run_rows :
  exists rows,
    SaveToDisk (mkPath "" ["data"; "out"; "HDFS1"; "embedding_from_run_1"]) rows
    ∈ trace (embed_dataset demo_raw_config demo_world).2 /\
    map fst rows = ["a"; "bcd"; "ef"].
Proof. eexists. split; [vm_compute; repeat constructor|reflexivity]. Qed.

Lemma raw_run_rows_witness :
  exists embs : list (list (list Z)),
    Forall2 (fun b emb => length emb = length b) [["a"; "bcd"]; ["ef"]] embs /\
    length (concat embs) = 3.
Proof.
  assert (embed_dataset demo_raw_config demo_world
          = (inr demo_model, (embed_dataset demo_raw_config demo_world).2))
    as Hrun by (vm_compute; reflexivity).
  destruct (raw_run_rows demo_raw_config demo_world _ _ Hrun)
    as (model & input & parent & embs & _ & _ & _ & Hlens & Hlen & _).
  exists embs. split; [exact Hlens|exact Hlen].
Defined.


End EmbedDatasetMore.

(** ** More on [embed_labeled_dataset_for_anomaly_detection.py] *)

Module EmbedLabeledMore.
Import Py PyFacts Pathlib Torch Encoders Script ScriptFacts EmbedLabeled.
Import EmbedLabeledFacts Observations Demo.

(** A comprehension stops at the first element that fails. *)
Lemma traverse_first_failure {A B : Type} (f : A -> result B) pre x post e :
  Forall (fun y => exists z, f y = inr z) pre -> f x = inl e ->
  traverse f (pre ++ x :: post) = inl e.
Proof.
  intros Hpre Hx. induction Hpre as [|y pre [z Hz] _ IH]; simpl.
  - by rewrite Hx.
  - by rewrite Hz, IH.
Qed.

Section Labeled.
Context {R : Type} `{Backend R} `{!Library R}.


(** A labels file that names a block which the log does not have makes the
    run fail with the [KeyError] of the first such block id. When the
    embedding of the blocks itself completes, the failure comes after the
    encoder has been called for every block of the log, and nothing is
    written. *)
Theorem unknown_block_fails config w model input labels parent arch others c
    pre row post embedded encoder' w6 :
  model_path config = Some model ->
  input_dataset_log_file config = Some input ->
  input_dataset_labels_csv config = Some labels ->
  output_parent_folder config = Some parent ->
  output_path_usable fs
    (output_path parent input model (dataset_output_name config)) = true ->
  architectures (AutoConfig_from_pretrained model) = Some (arch :: others) ->
  dict_get (dict_by __name__ (dict_values KNOWN_ENCODER_CLASSES)) arch = inr c ->
  embed_blocks (AutoTokenizer_from_pretrained (base_model_name config))
    (map_to_list (load_hdfs1_log_file_grouped (parse input)))
    (cls_eval c (cls_from_pretrained c model)) ∅
    {| trace := trace w ++ loads config model input labels
                ++ [LoadModel (__name__ c) model];
       gen := gen w |}
  = (inr (embedded, encoder'), w6) ->
  read_csv (parse labels) = pre ++ row :: post ->
  Forall (fun r => is_Some (load_hdfs1_log_file_grouped (parse input)
                            !! BlockId r)) pre ->
  load_hdfs1_log_file_grouped (parse input) !! BlockId row = None ->
  embed_dataset config w = (inl (KeyError (BlockId row)), w6) /\
  exists calls,
    trace w6
    = trace w ++ loads config model input labels
      ++ [LoadModel (__name__ c) model] ++ calls /\
    length calls = size (load_hdfs1_log_file_grouped (parse input)) /\
    Forall (fun ev => is_forward ev = true) calls /\
    Forall (fun ev => is_write ev = false) calls.
Proof.
  intros Hm Hi Hl Hp Hu Harch Hc Hblocks Hrows Hpre Hrow.
  rewrite (labeled_embed_dataset_given _ _ _ _ _ Hm Hi Hl Hp).
  rewrite bind_run. unfold lift, assert. rewrite Hu.
  rewrite embed_steps_run. cbn zeta.
  unfold first_architecture. rewrite Harch, Hc.
  rewrite encode_steps_run. simpl. rewrite <- app_assoc. rewrite Hblocks.
  destruct (embed_blocks_dom _ _ _ _ _ _ _ _ Hblocks)
    as (Hdom & calls & Htrace & Hlen & Hcalls & _).
  rewrite save_steps_run.
  assert (traverse (block_embedding embedded)
            (map fst (labels_of (read_csv (parse labels))))
          = inl (KeyError (BlockId row))) as ->.
  { rewrite Hrows. unfold labels_of. rewrite !List.map_app. simpl.
    apply traverse_first_failure.
    - rewrite List.map_map. simpl.
      apply List.Forall_map. eapply Forall_impl; [exact Hpre|].
      intros r Hr%elem_of_dom. rewrite <- Hdom in Hr.
      apply elem_of_dom in Hr as [arr Harr].
      exists arr. unfold block_embedding. by rewrite Harr.
    - unfold block_embedding.
      assert (embedded !! BlockId row = None) as ->; [|done].
      apply not_elem_of_dom. rewrite Hdom. by apply not_elem_of_dom. }
  split; [done|]. exists calls. split_and!; try done.
  - rewrite Htrace. simpl. by rewrite <- !app_assoc.
  - eapply Forall_impl; [exact Hcalls|]. by intros [].
Qed.

(** A saved configuration without architectures stops the run after the
    four loads and before any model is loaded: with [architectures] unset
    the subscript raises a [TypeError], with an empty list an
    [IndexError]. *)
Theorem missing_architecture_fails config w model input labels parent :
  model_path config = Some model ->
  input_dataset_log_file config = Some input ->
  input_dataset_labels_csv config = Some labels ->
  output_parent_folder config = Some parent ->
  output_path_usable fs
    (output_path parent input model (dataset_output_name config)) = true ->
  let stopped :=
    {| trace := trace w ++ loads config model input labels; gen := gen w |} in
  (architectures (AutoConfig_from_pretrained model) = None ->
   embed_dataset config w = (inl TypeError, stopped)) /\
  (architectures (AutoConfig_from_pretrained model) = Some [] ->
   embed_dataset config w = (inl IndexError, stopped)).
Proof.
  intros Hm Hi Hl Hp Hu stopped.
  rewrite (labeled_embed_dataset_given _ _ _ _ _ Hm Hi Hl Hp).
  rewrite bind_run. unfold lift, assert. rewrite Hu.
  rewrite embed_steps_run. cbn zeta. unfold first_architecture.
  split; by intros ->.
Qed.

(** When several known classes have the same [__name__], the dictionary
    comprehension keeps the one that comes last in
    [KNOWN_ENCODER_CLASSES], and that is the class the lookup returns. *)
Theorem lookup_takes_last_class (before after : list (encoder_class R))
    (c : encoder_class R) :
  dict_values KNOWN_ENCODER_CLASSES = before ++ c :: after ->
  Forall (fun c' => __name__ c' <> __name__ c) after ->
  dict_get (dict_by __name__ (dict_values KNOWN_ENCODER_CLASSES)) (__name__ c)
  = inr c.
Proof.
  intros -> Hafter. rewrite dict_by_get.
  rewrite rev_app_distr. simpl. rewrite <- app_assoc. simpl.
  assert (List.find (fun x => String.eqb (__name__ x) (__name__ c)) (rev after)
          = None) as Hnone.
  { destruct (List.find _ (rev after)) as [c'|] eqn:E; [|done].
    apply List.find_some in E as [Hin Hname].
    apply String.eqb_eq in Hname.
    apply List.in_rev, list_elem_of_In in Hin.
    by destruct (proj1 (Forall_forall _ _) Hafter c' Hin). }
  generalize dependent (rev after). intros l Hnone.
  induction l as [|x l IH]; simpl in *.
  - by rewrite String.eqb_refl.
  - destruct (String.eqb (__name__ x) (__name__ c)); [done|]. by apply IH.
Qed.

End Labeled.

Example demo_unknown_block :
  (embed_dataset (Library0 := demo_missing_block_library) demo_labeled_config
     demo_world).1
  = inl (KeyError "blk_7").
Proof. vm_compute. reflexivity. Qed.


Lemma unknown_block_fails_witness :
  (embed_dataset (Library0 := demo_missing_block_library) demo_labeled_config
     demo_world).1
  = inl (KeyError "blk_7").
Proof.
  assert (exists embedded encoder' w6,
            embed_blocks (c := DistilBertForClsEmbedding_class demo_checkpoint)
              (demo_tokenizer "distilbert-base-cased")
              (map_to_list ({[ "blk_1" := ["a"; "bcd"]; "blk_2" := ["ef"] ]}
                            : gmap string (list string)))
              (eval (from_pretrained (demo_checkpoint "models/run_1"))) ∅
              {| trace := trace demo_world
                          ++ loads (R := Z)
                               demo_labeled_config "models/run_1"
                               "logs/HDFS1.log" "logs/labels.csv"
                          ++ [LoadModel "DistilBertForClsEmbedding"
                                "models/run_1"];
                 gen := gen demo_world |}
            = (inr (embedded, encoder'), w6))
    as (embedded & encoder' & w6 & Hblocks)
    by (eexists _, _, _; vm_compute; reflexivity).
  destruct (unknown_block_fails (Library0 := demo_missing_block_library)
              demo_labeled_config demo_world
              "models/run_1" "logs/HDFS1.log" "logs/labels.csv" "data/out"
              "DistilBertForClsEmbedding" []
              (DistilBertForClsEmbedding_class demo_checkpoint)
              [mkRow "blk_2" "Anomaly"] (mkRow "blk_7" "Normal")
              [mkRow "blk_1" "Normal"] embedded encoder' w6
              eq_refl eq_refl eq_refl eq_refl eq_refl eq_refl eq_refl
              Hblocks eq_refl)
    as [Hrun _].
  - repeat constructor. by eexists.
  - reflexivity.
  - by rewrite Hrun.
Defined.

Lemma missing_architecture_fails_witness :
  embed_dataset (Library0 := demo_no_architecture_library) demo_labeled_config
    demo_world
  = (inl TypeError,
     {| trace := trace demo_world
                 ++ loads (R := Z)
                      demo_labeled_config "models/run_1" "logs/HDFS1.log"
                      "logs/labels.csv";
        gen := gen demo_world |}).
Proof.
  apply (missing_architecture_fails (Library0 := demo_no_architecture_library)
           demo_labeled_config demo_world "models/run_1" "logs/HDFS1.log"
           "logs/labels.csv" "data/out" eq_refl eq_refl eq_refl eq_refl eq_refl).
  reflexivity.
Defined.

Lemma lookup_takes_last_class_witness :
  dict_get
    (dict_by __name__
       (dict_values (KNOWN_ENCODER_CLASSES (Library := demo_duplicate_library))))
    "DistilBertForClsEmbedding"
  = inr (DistilBertForClsEmbedding_class other_checkpoint).
Proof.
  apply (lookup_takes_last_class (Library0 := demo_duplicate_library)
           [DistilBertForClsEmbedding_class demo_checkpoint] []
           (DistilBertForClsEmbedding_class other_checkpoint) eq_refl).
  constructor.
Defined.

End EmbedLabeledMore.

(** ** More on the output directory of the two embedding scripts *)

Module OutputPathMore.
Import Py PyFacts Pathlib PathFacts.

#[local] Arguments String.append !_ _ / : simpl nomatch.
#[local] Arguments Ascii.eqb : simpl never.

(** Splitting after a separator gives the pieces before it, then those
    after it. *)
Lemma split_chr_app c a b :
  split_chr c (a +:+ String c b) = split_chr c a ++ split_chr c b.
Proof.
  induction a as [|x a IH]; simpl.
  - by rewrite Ascii.eqb_refl.
  - rewrite IH. destruct (Ascii.eqb x c); [done|].
    pose proof (split_chr_nonempty c a) as Hne.
    by destruct (split_chr c a).
Qed.

Lemma lstrip_sep_none s r : lstrip_sep s = (0, r) -> r = s.
Proof.
  destruct s as [|b s]; simpl; [by intros [= <-]|].
  destruct (Ascii.eqb b "/"); [|by intros [= <-]].
  by destruct (lstrip_sep s).
Qed.

Lemma splitroot_rest s : (splitroot s).2 = (lstrip_sep s).2.
Proof.
  unfold splitroot. destruct (lstrip_sep s) as [n r] eqn:E.
  destruct n as [|[|[|n]]]; simpl; try done.
  symmetry. by eapply lstrip_sep_none.
Qed.

Lemma parse_names_rest s :
  names (parse s)
  = filter (fun x => kept x = true) (split_chr "/" (lstrip_sep s).2).
Proof.
  unfold parse. rewrite <- splitroot_rest. by destruct (splitroot s).
Qed.

(** What is left of [a/b] once leading slashes are gone still ends with the
    piece [b]. *)
Lemma lstrip_sep_last a b :
  chr_in "/" b = false ->
  exists pre, split_chr "/" (lstrip_sep (a +:+ String "/" b)).2 = pre ++ [b].
Proof.
  intros Hb. induction a as [|x a IH].
  - simpl.
    assert (lstrip_sep b = (0, b)) as Eb.
    { destruct b as [|y b]; [done|]. simpl in *.
      apply orb_false_iff in Hb as [Hy _].
      by rewrite Ascii.eqb_sym, Hy. }
    rewrite Eb. simpl. exists []. by apply split_chr_without.
  - change (String x a +:+ String "/" b) with (String x (a +:+ String "/" b)).
    cbn [lstrip_sep]. destruct (Ascii.eqb x "/") eqn:Ex.
    + destruct IH as [pre Hpre].
      destruct (lstrip_sep (a +:+ String "/" b)) as [n r]. by exists pre.
    + cbn [snd].
      change (String x (a +:+ String "/" b)) with (String x a +:+ String "/" b).
      rewrite split_chr_app, (split_chr_without _ b) by done. by eexists.
Qed.

(** The last component of [p / 'a/b'] is [b], whatever [p] and [a] are. *)
Lemma name_truediv_last p a b :
  chr_in "/" b = false -> kept b = true ->
  name (truediv p (a +:+ String "/" b)) = b.
Proof.
  intros Hb Hkept.
  destruct (lstrip_sep_last a b Hb) as [pre Hpre].
  assert (names (parse (a +:+ String "/" b))
          = filter (fun x => kept x = true) pre ++ [b]) as Hnames.
  { rewrite parse_names_rest, Hpre, filter_app.
    by rewrite filter_cons_True, filter_nil by done. }
  unfold name, truediv.
  destruct (String.eqb _ _); simpl; rewrite Hnames;
    by rewrite ?app_assoc, List.last_last.
Qed.

(** With no [--dataset-output-name], the last component of the output path
    is [embedding_from_<model stem>] for the raw script and
    [labeled_embedding_from_<model stem>] for the labeled one, whatever the
    parent folder and the input path are; so, given the same arguments, the
    two scripts never use the same output directory. *)
Theorem default_output_directories (parent input model : string) :
  name (EmbedDataset.output_path parent input model None)
  = "embedding_from_" +:+ stem (parse model) /\
  name (EmbedLabeled.output_path parent input model None)
  = "labeled_embedding_from_" +:+ stem (parse model) /\
  EmbedDataset.output_path parent input model None
  <> EmbedLabeled.output_path parent input model None.
Proof.
  assert (forall prefix x,
            chr_in "/" prefix = false ->
            chr_in "/" (prefix +:+ stem (parse x)) = false) as Hsep.
  { intros prefix x Hp. by rewrite chr_in_app, Hp, stem_without_sep. }
  assert (name (EmbedDataset.output_path parent input model None)
          = "embedding_from_" +:+ stem (parse model)) as Hraw.
  { unfold EmbedDataset.output_path, EmbedDataset.dataset_name.
    apply (name_truediv_last _ _ ("embedding_from_" +:+ stem (parse model)));
      [by apply Hsep|done]. }
  assert (name (EmbedLabeled.output_path parent input model None)
          = "labeled_embedding_from_" +:+ stem (parse model)) as Hlabeled.
  { unfold EmbedLabeled.output_path, EmbedLabeled.dataset_name.
    apply (name_truediv_last _ _
             ("labeled_embedding_from_" +:+ stem (parse model)));
      [by apply Hsep|done]. }
  split_and!; [done..|].
  intros Heq. rewrite Heq, Hlabeled in Hraw. done.
Qed.

Example default_directory_without_file_name :
  Pathlib.str (EmbedDataset.output_path "data/out" "/" "models/run_1" None)
  = "/embedding_from_run_1".
Proof. reflexivity. Qed.

End OutputPathMore.
